(** * video-edit-script: the cut-and-combine script [main.py]

    A shallow embedding of [src/main.py] and the properties of its four
    procedures: [calculate_total_duration], [cut_video], [combine_videos],
    [main], and of the [__main__] block that asks for confirmation.

    Modelling conventions.
    - A Python [str] is a [string]; a character is a code point below 256.
    - A Python [int] is a [Z] ([//] is [Z.div], [%] is [Z.modulo]: both
      round towards minus infinity for a positive divisor, as Python does).
      The conversions between [int] and [str] are the unbounded ones
      (no limit on the number of digits).
    - [clips_dict.items()] is the list of the dict's items in insertion
      order, each item a file name paired with a (start, end) pair.
    - Exceptions are values of [exn]; a procedure that can raise returns a
      [result].
    - The file system and the subprocess calls are explicit: a [World]
      holds the files that exist and the trace of what the script did.
      The trace also records the entry into [cut_video] and
      [combine_videos], so that calls can be counted.
    - The external processor (ffmpeg) is a parameter: any function from
      the command line and the world to an exit status and the files left.
      It is taken to be installed, so starting it always gives a status.
      [os.path.join] is a parameter too, since it depends on the platform.
    - The progress bar that [tqdm] draws around the loop of cuts is not
      recorded; the lines written with [tqdm.write] are. *)

From Stdlib Require Import ZArith Ascii String List Lia.
From stdpp Require Import base option strings list gmap.

Local Open Scope Z_scope.

(** ** Exceptions and results *)

Inductive exn : Type :=
  | ValueError
  | CalledProcessError (returncode : Z) (cmd : list string)
  | FileNotFoundError (path : string)
  | IndexError
  | SystemExit.

Inductive result (A : Type) : Type :=
  | Ok (a : A)
  | Raise (e : exn).
Arguments Ok {A} a.
Arguments Raise {A} e.

#[global] Instance result_ret : MRet result := @Ok.
#[global] Instance result_bind : MBind result := fun A B k r =>
  match r with
  | Ok a => k a
  | Raise e => Raise e
  end.

(** ** Python string primitives *)

Module PyStr.

(** [str.isspace] on one character, for code points below 256:
    TAB..CR, FS..US, SPACE, NEL and NBSP. *)
Definition isspace (c : ascii) : bool :=
  let n := N_of_ascii c in
  ((9 <=? n) && (n <=? 13) || (28 <=? n) && (n <=? 32)
   || (n =? 133) || (n =? 160))%N.

Definition isdigit (c : ascii) : bool :=
  let n := N_of_ascii c in ((48 <=? n) && (n <=? 57))%N.

Definition digit_val (c : ascii) : Z := Z.of_N (N_of_ascii c) - 48.

Definition digit_char (d : Z) : ascii := ascii_of_N (Z.to_N (d + 48)).

(** [str.lower] on one character, for code points below 256. *)
Definition lower_char (c : ascii) : ascii :=
  let n := N_of_ascii c in
  if ((65 <=? n) && (n <=? 90)
      || (192 <=? n) && (n <=? 222) && negb (n =? 215))%N
  then ascii_of_N (n + 32) else c.

Fixpoint lower (s : string) : string :=
  match s with
  | EmptyString => EmptyString
  | String c r => String (lower_char c) (lower r)
  end.

(** The characters that [int] skips around a literal: those of
    [str.isspace] except FS..US. *)
Definition int_space (c : ascii) : bool :=
  let n := N_of_ascii c in
  ((9 <=? n) && (n <=? 13) || (n =? 32) || (n =? 133) || (n =? 160))%N.

Fixpoint lstrip_by (space : ascii -> bool) (s : string) : string :=
  match s with
  | EmptyString => EmptyString
  | String c r => if space c then lstrip_by space r else s
  end.

Fixpoint rstrip_by (space : ascii -> bool) (s : string) : string :=
  match s with
  | EmptyString => EmptyString
  | String c r =>
      match rstrip_by space r with
      | EmptyString => if space c then EmptyString else String c EmptyString
      | r' => String c r'
      end
  end.

Definition strip_by (space : ascii -> bool) (s : string) : string :=
  rstrip_by space (lstrip_by space s).

(** [str.strip()]. *)
Definition strip (s : string) : string := strip_by isspace s.

(** [s.split(":")]: never empty, [""] splits into [[""]]. *)
Fixpoint split_colon (s : string) : list string :=
  match s with
  | EmptyString => [EmptyString]
  | String c r =>
      if Ascii.eqb c ":" then EmptyString :: split_colon r
      else match split_colon r with
           | h :: t => String c h :: t
           | [] => [String c EmptyString]
           end
  end.

(** The digits of an [int] literal: at least one digit, single
    underscores allowed between digits. [seen] tells whether the
    previous character was a digit. *)
Fixpoint parse_digits (acc : Z) (seen : bool) (s : string) : option Z :=
  match s with
  | EmptyString => if seen then Some acc else None
  | String c r =>
      if isdigit c then parse_digits (10 * acc + digit_val c) true r
      else if Ascii.eqb c "_" then
             if seen then parse_digits acc false r else None
      else None
  end.

(** [int(s)] in base 10: surrounding whitespace is dropped, one sign is
    allowed, anything else raises [ValueError]. *)
Definition int (s : string) : result Z :=
  let body := strip_by int_space s in
  let parsed :=
    match body with
    | String "-" r => Z.opp <$> parse_digits 0 false r
    | String "+" r => parse_digits 0 false r
    | _ => parse_digits 0 false body
    end in
  match parsed with
  | Some v => Ok v
  | None => Raise ValueError
  end.

(** Decimal digits of a non-negative number, most significant first,
    prepended to [acc]. *)
Fixpoint digits_fuel (fuel : nat) (n : Z) (acc : string) : string :=
  match fuel with
  | O => acc
  | S f =>
      let acc' := String (digit_char (n mod 10)) acc in
      if n <? 10 then acc' else digits_fuel f (n / 10) acc'
  end.

(** [str(n)] for [0 <= n]. *)
Definition str_nat (n : Z) : string :=
  digits_fuel (S (Z.to_nat (Z.log2 n))) n EmptyString.

Fixpoint zeros (k : nat) : string :=
  match k with
  | O => EmptyString
  | S k' => String "0" (zeros k')
  end.

(** [format(n, "0w")] for an [int]: sign-aware zero padding to a minimum
    width [w]; the sign counts in the width. *)
Definition format_0w (w : nat) (n : Z) : string :=
  let sign := if n <? 0 then "-" else "" in
  let ds := str_nat (Z.abs n) in
  sign +:+ zeros (w - String.length sign - String.length ds) +:+ ds.

End PyStr.

(** ** The Duration Calculator *)

(** A Clip Request Set as [clips_dict.items()] yields it. *)
Definition clips := list (string * (string * string)).

(** [sum(int(x) * 60**i for i, x in enumerate(...))], with [sum]'s running
    total [acc] and [enumerate]'s counter [i]. *)
Fixpoint sum_fields (acc : Z) (i : nat) (xs : list string) : result Z :=
  match xs with
  | [] => Ok acc
  | x :: r =>
      v ← PyStr.int x;
      sum_fields (acc + v * 60 ^ Z.of_nat i) (S i) r
  end.

(** The seconds of one timestamp (lines 14-16 and 17-19 of the source). *)
Definition to_seconds (t : string) : result Z :=
  sum_fields 0 0 (rev (PyStr.split_colon t)).

(** The loop of lines 12-20, [total] being [total_seconds]. *)
Fixpoint accumulate (total : Z) (items : clips) : result Z :=
  match items with
  | [] => Ok total
  | (_, (start_time, end_time)) :: r =>
      start_seconds ← to_seconds start_time;
      end_seconds ← to_seconds end_time;
      accumulate (total + (end_seconds - start_seconds)) r
  end.

(** Lines 22-25. *)
Definition format_duration (total_seconds : Z) : string :=
  let hours := total_seconds / 3600 in
  let minutes := (total_seconds mod 3600) / 60 in
  let seconds := total_seconds mod 60 in
  PyStr.format_0w 2 hours +:+ ":" +:+ PyStr.format_0w 2 minutes
    +:+ ":" +:+ PyStr.format_0w 2 seconds.

Definition calculate_total_duration (clips_dict : clips) : result string :=
  total_seconds ← accumulate 0 clips_dict;
  Ok (format_duration total_seconds).

(** ** The world: files and the trace of the run *)

(** The two procedures of the script that wrap the external processor. *)
Inductive call : Type :=
  | CutVideo (input_file output_file start_time end_time : string)
  | CombineVideos (input_files : list string) (output_file : string).

Inductive event : Type :=
  | EPrint (line : string)                     (* print *)
  | EInput (prompt : string)                   (* input *)
  | EWrite (line : string)                     (* tqdm.write *)
  | ECall (c : call)                           (* entry into a procedure *)
  | ERun (command : list string) (returncode : Z)  (* subprocess.run *)
  | EMove (src dst : string)                   (* shutil.move *)
  | EExists (path : string) (found : bool)     (* os.path.exists *)
  | ERemove (path : string).                   (* os.remove *)

(** Files are a flat map from path to content: directories, links and two
    spellings of one path are outside the model. [trace] is in
    chronological order. *)
Record World : Type := mkWorld {
  files : gmap string string;
  trace : list event
}.

Definition log (e : event) (w : World) : World :=
  mkWorld (files w) (trace w ++ [e]).

(** A computation that reads and changes the world and may raise; after a
    raise the world is the one at the point of the raise. *)
Definition M (A : Type) : Type := World -> result A * World.

#[global] Instance M_ret : MRet M := fun A a w => (Ok a, w).
#[global] Instance M_bind : MBind M := fun A B k m w =>
  match m w with
  | (Ok a, w1) => k a w1
  | (Raise e, w1) => (Raise e, w1)
  end.

Definition raise {A} (e : exn) : M A := fun w => (Raise e, w).
Definition emit (e : event) : M unit := fun w => (Ok tt, log e w).
Definition lift {A} (r : result A) : M A := fun w => (r, w).

Definition print (line : string) : M unit := emit (EPrint line).
Definition tqdm_write (line : string) : M unit := emit (EWrite line).

(** [os.path.exists], [os.remove] and [shutil.move] on plain files. *)
Definition os_path_exists (path : string) : M bool := fun w =>
  let found := bool_decide (is_Some (files w !! path)) in
  (Ok found, log (EExists path found) w).

Definition os_remove (path : string) : M unit := fun w =>
  let w1 := log (ERemove path) w in
  match files w !! path with
  | Some _ => (Ok tt, mkWorld (delete path (files w1)) (trace w1))
  | None => (Raise (FileNotFoundError path), w1)
  end.

Definition shutil_move (src dst : string) : M unit := fun w =>
  let w1 := log (EMove src dst) w in
  match files w !! src with
  | Some content =>
      (Ok tt, mkWorld (<[dst := content]> (delete src (files w1))) (trace w1))
  | None => (Raise (FileNotFoundError src), w1)
  end.

Section Script.

(** The external processor: given the command line and the world at the
    time of the call, its exit status and the files it leaves. *)
Variable spawn : list string -> World -> Z * gmap string string.

(** [os.path.join] on two components. *)
Variable path_join : string -> string -> string.

(** [subprocess.run(command, ..., check=True)]. *)
Definition subprocess_run (command : list string) : M unit := fun w =>
  let '(returncode, files') := spawn command w in
  let w1 := mkWorld files' (trace w ++ [ERun command returncode]) in
  if returncode =? 0 then (Ok tt, w1)
  else (Raise (CalledProcessError returncode command), w1).

(** The world once the processor has run [command] in [w]. *)
Definition after_run (command : list string) (w : World) : World :=
  mkWorld (spawn command w).2 (trace w ++ [ERun command (spawn command w).1]).

Definition cut_command (input_file output_file start_time end_time : string)
  : list string :=
  [ "ffmpeg"; "-ss"; start_time; "-i"; input_file; "-to"; end_time;
    "-c:v"; "libx264"; "-c:a"; "aac"; "-avoid_negative_ts"; "1";
    output_file ].

Definition cut_video (input_file output_file start_time end_time : string)
  : M unit :=
  emit (ECall (CutVideo input_file output_file start_time end_time));;
  subprocess_run (cut_command input_file output_file start_time end_time).

(** The loop of lines 58-60. *)
Definition input_args (input_files : list string) : list string :=
  fold_left (fun args file => args ++ ["-i"; file]) input_files [].

Definition combine_command (input_files : list string) (output_file : string)
  : list string :=
  let filter_complex :=
    "concat=n=" +:+ PyStr.str_nat (Z.of_nat (length input_files))
      +:+ ":v=1:a=1" in
  ["ffmpeg"] ++ input_args input_files
    ++ [ "-filter_complex"; filter_complex; "-c:v"; "libx264";
         "-c:a"; "aac"; output_file ].

Definition combine_videos (input_files : list string) (output_file : string)
  : M unit :=
  emit (ECall (CombineVideos input_files output_file));;
  subprocess_run (combine_command input_files output_file).

Section Main.

Variable video_folder : string.
Variable final_output_file : string.

Definition input_path (filename : string) : string :=
  path_join video_folder filename.

Definition cut_path (filename : string) : string :=
  path_join video_folder ("cut_" +:+ filename).

(** What one entry of the Clip Request Set stands for: its call of
    the Clip Cutter, the command of that call, its progress line, the
    intermediate paths of a list of entries, and the events of one
    iteration whose command exits with status zero. *)
Definition cut_call (item : string * (string * string)) : call :=
  CutVideo (input_path item.1) (cut_path item.1) item.2.1 item.2.2.

Definition cut_command_of (item : string * (string * string))
  : list string :=
  cut_command (input_path item.1) (cut_path item.1) item.2.1 item.2.2.

Definition cut_message (item : string * (string * string)) : string :=
  "Cutting " +:+ item.1 +:+ " from " +:+ item.2.1 +:+ " to "
    +:+ item.2.2 +:+ "...".

Definition cut_paths (items : clips) : list string :=
  map (fun item => cut_path item.1) items.

Definition cut_events (item : string * (string * string)) : list event :=
  [ EWrite (cut_message item); ECall (cut_call item);
    ERun (cut_command_of item) 0 ].

(** The world in which the processor is started for [item], when the
    iteration begins in [w]. *)
Definition before_cut (item : string * (string * string)) (w : World)
  : World :=
  log (ECall (cut_call item)) (log (EWrite (cut_message item)) w).

(** The world in which the processor is started to combine [cut_files],
    when the cuts ended in [w]. *)
Definition before_combine (cut_files : list string) (w : World) : World :=
  log (ECall (CombineVideos cut_files final_output_file))
    (log (EWrite "Combining videos...") w).

(** The things [main] does for the Clip Request Set [clips_dict]: lines
    written, calls and commands for its entries and for the combination,
    the move of the single intermediate file, and checks and removals of
    intermediate paths. *)
Definition script_action (clips_dict : clips) (e : event) : Prop :=
  match e with
  | EWrite _ => True
  | ECall c =>
      (exists item, item ∈ clips_dict /\ c = cut_call item)
      \/ c = CombineVideos (cut_paths clips_dict) final_output_file
  | ERun command _ =>
      (exists item, item ∈ clips_dict /\ command = cut_command_of item)
      \/ command = combine_command (cut_paths clips_dict) final_output_file
  | EMove src dst =>
      dst = final_output_file
      /\ exists item, clips_dict = [item] /\ src = cut_path item.1
  | EExists path _ | ERemove path => path ∈ cut_paths clips_dict
  | EPrint _ | EInput _ => False
  end.

(** The loop of lines 86-94; [cut_files] is the list built so far. *)
Fixpoint cut_loop (cut_files : list string) (items : clips)
  : M (list string) :=
  match items with
  | [] => mret cut_files
  | (filename, (start_time, end_time)) :: rest =>
      let input_file := input_path filename in
      let output_file := cut_path filename in
      tqdm_write ("Cutting " +:+ filename +:+ " from " +:+ start_time
                    +:+ " to " +:+ end_time +:+ "...");;
      cut_video input_file output_file start_time end_time;;
      cut_loop (cut_files ++ [output_file]) rest
  end.

(** Lines 96-103. *)
Definition finish (cut_files : list string) : M unit :=
  (if (length cut_files =? 1)%nat then
     tqdm_write "Only one file detected. Skipping combining step...";;
     match cut_files !! 0%nat with
     | Some first => shutil_move first final_output_file
     | None => raise IndexError
     end
   else
     tqdm_write "Combining videos...";;
     combine_videos cut_files final_output_file);;
  tqdm_write ("Final output saved to " +:+ final_output_file).

(** The loop of lines 105-107. *)
Fixpoint cleanup (cut_files : list string) : M unit :=
  match cut_files with
  | [] => mret tt
  | file :: rest =>
      found ← os_path_exists file;
      (if found : bool then os_remove file else mret tt);;
      cleanup rest
  end.

Definition main (clips_dict : clips) : M unit :=
  cut_files ← cut_loop [] clips_dict;
  finish cut_files;;
  cleanup cut_files.

(** The [__main__] block from line 119 on, for a given configuration;
    [answer] is the line the user types at the prompt. *)
Definition run_script (clips_dict : clips) (answer : string) : M unit :=
  total_duration ← lift (calculate_total_duration clips_dict);
  print ("Total duration of the final video will be: "
           +:+ total_duration);;
  emit (EInput "Do you want to continue? (y/n): ");;
  let user_input := PyStr.lower (PyStr.strip answer) in
  if bool_decide (user_input ≠ "y") then
    print "Operation cancelled by the user.";;
    raise SystemExit
  else
    main clips_dict.

End Main.

(** The script as shipped: lines 111-117 fix the folder, the output path
    and an empty Clip Request Set. *)
Definition shipped_script (answer : string) : M unit :=
  let video_folder := "C:\Videos" in
  let final_output_file := path_join "C:\Videos" "final_output.mp4" in
  run_script video_folder final_output_file [] answer.

End Script.

(** A processor that exits with [status] and, when the status is zero,
    writes its last argument. *)
Definition simple_ffmpeg (status : list string -> Z) (command : list string)
    (w : World) : Z * gmap string string :=
  match last command with
  | Some out =>
      if status command =? 0 then (0, <[out := "video"]> (files w))
      else (status command, files w)
  | None => (status command, files w)
  end.

Definition always_ok (command : list string) : Z := 0.

(** Exit status 1 for the command that writes [out], 0 for the others. *)
Definition fail_on (out : string) (command : list string) : Z :=
  if bool_decide (last command = Some out) then 1 else 0.

(** [posixpath.join] on two components. *)
Definition posix_join (a b : string) : string :=
  match b with
  | String "/" _ => b
  | _ =>
      if bool_decide (a = "")
         || bool_decide (last (String.list_ascii_of_string a) = Some "/"%char)
      then a +:+ b else a +:+ "/" +:+ b
  end.

(** A folder with three source files, and nothing done yet. *)
Definition demo_world : World :=
  mkWorld {[ "v/a.mp4" := "A"; "v/b.mp4" := "B"; "v/c.mp4" := "C" ]} [].

Definition demo_clips : clips :=
  [ ("a.mp4", ("00:00:10", "00:00:20")); ("b.mp4", ("00:00:00", "00:00:05")) ].

(** A run of three cuts in which the second one fails, and a run of two
    cuts in which nothing fails. *)
Definition three_clips : clips :=
  demo_clips ++ [("c.mp4", ("00:00:00", "00:00:07"))].

Definition failed_run : result unit * World :=
  main (simple_ffmpeg (fail_on "v/cut_b.mp4")) posix_join "v" "v/out.mp4"
    three_clips demo_world.

Definition good_run : result unit * World :=
  main (simple_ffmpeg always_ok) posix_join "v" "v/out.mp4"
    demo_clips demo_world.

(** ** Vocabulary of the statements *)

Fixpoint all_chars (p : ascii -> bool) (s : string) : bool :=
  match s with
  | EmptyString => true
  | String c r => p c && all_chars p r
  end.

(** A numeric field: one or more decimal digits. *)
Definition numeric (s : string) : bool :=
  negb (bool_decide (s = "")) && all_chars PyStr.isdigit s.

(** The number a digit string denotes, continuing from [acc]. *)
Fixpoint dec_value (acc : Z) (s : string) : Z :=
  match s with
  | EmptyString => acc
  | String c r => dec_value (10 * acc + PyStr.digit_val c) r
  end.

(** A timestamp of colon-separated numeric fields. *)
Definition numeric_timestamp (t : string) : bool :=
  forallb numeric (PyStr.split_colon t).

(** Base-60 positional value: a field is weighted by 60 to the number of
    fields on its right. *)
Fixpoint positional (fields : list Z) : Z :=
  match fields with
  | [] => 0
  | x :: r => x * 60 ^ Z.of_nat (length r) + positional r
  end.

Definition timestamp_seconds (t : string) : Z :=
  positional (map (dec_value 0) (PyStr.split_colon t)).

(** The sum over all entries of [end_seconds - start_seconds]. *)
Fixpoint clip_seconds_sum (items : clips) : Z :=
  match items with
  | [] => 0
  | (_, (start_time, end_time)) :: r =>
      (timestamp_seconds end_time - timestamp_seconds start_time)
      + clip_seconds_sum r
  end.

Definition valid_entry (item : string * (string * string)) : Prop :=
  numeric_timestamp item.2.1 = true /\ numeric_timestamp item.2.2 = true.

Definition increasing_entry (item : string * (string * string)) : Prop :=
  timestamp_seconds item.2.1 < timestamp_seconds item.2.2.

(** A number below 100 written with exactly two digits. *)
Definition two_digits (n : Z) : string :=
  String (PyStr.digit_char (n / 10))
    (String (PyStr.digit_char (n mod 10)) EmptyString).

(** The procedure calls recorded in a trace, in order. *)
Definition calls (tr : list event) : list call :=
  omap (fun e => match e with ECall c => Some c | _ => None end) tr.

(** The commands handed to the external processor, and the moves, in
    order. *)
Definition runs (tr : list event) : list (list string) :=
  omap (fun e => match e with ERun command _ => Some command | _ => None end) tr.

Definition moves (tr : list event) : list (string * string) :=
  omap (fun e => match e with EMove src dst => Some (src, dst) | _ => None end) tr.

(** The files left when the paths of [l] are deleted one after the other,
    and the events of the cleanup loop started with the files [fs]. *)
Definition remove_all (l : list string) (fs : gmap string string)
  : gmap string string :=
  foldl (fun m path => delete path m) fs l.

Fixpoint cleanup_events (fs : gmap string string) (l : list string)
  : list event :=
  match l with
  | [] => []
  | path :: r =>
      if bool_decide (is_Some (fs !! path))
      then EExists path true :: ERemove path :: cleanup_events (delete path fs) r
      else EExists path false :: cleanup_events fs r
  end.

(** Events of the cleanup loop: existence checks and removals. *)
Definition is_cleanup (e : event) : Prop :=
  match e with
  | EExists _ _ | ERemove _ => True
  | _ => False
  end.

(** Events before an abort: nothing is moved, checked or removed, and every
    processor run recorded has exit status zero. *)
Definition undisturbed (e : event) : Prop :=
  match e with
  | EMove _ _ | EExists _ _ | ERemove _ => False
  | ERun _ returncode => returncode = 0
  | _ => True
  end.

(** Anything but a processor run with a non-zero exit status. *)
Definition no_failed_run (e : event) : Prop :=
  match e with
  | ERun _ returncode => returncode = 0
  | _ => True
  end.

(** Two assumptions on the external processor that some statements need:
    it writes its last argument when it exits with status zero; it never
    deletes a file. *)
Definition writes_output (spawn : list string -> World -> Z * gmap string string)
  : Prop :=
  forall command w out,
    (spawn command w).1 = 0 -> last command = Some out ->
    is_Some ((spawn command w).2 !! out).

Definition keeps_files (spawn : list string -> World -> Z * gmap string string)
  : Prop :=
  forall command w path,
    is_Some (files w !! path) -> is_Some ((spawn command w).2 !! path).

(** The processor exits with status zero on every cut command. *)
Definition cuts_succeed (spawn : list string -> World -> Z * gmap string string)
  : Prop :=
  forall input_file output_file start_time end_time w,
    (spawn (cut_command input_file output_file start_time end_time) w).1 = 0.

(** A field that [int] accepts, a timestamp all of whose fields it
    accepts, and an entry with two such timestamps. *)
Definition int_ok (x : string) : bool :=
  match PyStr.int x with
  | Ok _ => true
  | Raise _ => false
  end.

Definition parses (t : string) : bool :=
  forallb int_ok (PyStr.split_colon t).

Definition entry_parses (item : string * (string * string)) : bool :=
  parses item.2.1 && parses item.2.2.

(** What one iteration of the loop of lines 13-20 adds to the total. *)
Definition entry_delta (item : string * (string * string)) : result Z :=
  start_seconds ← to_seconds item.2.1;
  end_seconds ← to_seconds item.2.2;
  Ok (end_seconds - start_seconds).

(** The paths removed, in order. *)
Definition removals (tr : list event) : list string :=
  omap (fun e => match e with ERemove path => Some path | _ => None end) tr.


Definition touches_only_output
    (spawn : list string -> World -> Z * gmap string string) : Prop :=
  forall command w path,
    last command <> Some path -> (spawn command w).2 !! path = files w !! path.

(** ** Facts about the string primitives *)

Lemma append_nil_l (s : string) : "" +:+ s = s.
Proof. reflexivity. Qed.

Lemma append_cons (c : ascii) (r s : string) :
  String c r +:+ s = String c (r +:+ s).
Proof. reflexivity. Qed.

Lemma append_nil_r (s : string) : s +:+ "" = s.
Proof.
  induction s as [|c r IH]; [reflexivity|].
  rewrite append_cons. congruence.
Qed.

Lemma append_assoc (s1 s2 s3 : string) :
  (s1 +:+ s2) +:+ s3 = s1 +:+ (s2 +:+ s3).
Proof.
  induction s1 as [|c r IH]; [reflexivity|].
  rewrite !append_cons. congruence.
Qed.

Lemma append_length (s1 s2 : string) :
  String.length (s1 +:+ s2) = (String.length s1 + String.length s2)%nat.
Proof.
  induction s1 as [|c r IH]; [reflexivity|].
  rewrite append_cons. simpl. congruence.
Qed.

Lemma all_chars_app p (s1 s2 : string) :
  all_chars p (s1 +:+ s2) = all_chars p s1 && all_chars p s2.
Proof.
  induction s1 as [|c r IH]; [reflexivity|].
  rewrite append_cons. simpl. rewrite IH. apply andb_assoc.
Qed.

Lemma all_chars_weaken (p q : ascii -> bool) (s : string) :
  (forall c, p c = true -> q c = true) ->
  all_chars p s = true -> all_chars q s = true.
Proof.
  intros Hpq. induction s as [|c r IH]; simpl; [reflexivity|].
  intros [Hc Hr]%andb_true_iff. rewrite (Hpq c Hc). simpl. auto.
Qed.

Lemma digit_char_facts (d : Z) :
  0 <= d < 10 ->
  PyStr.isdigit (PyStr.digit_char d) = true
  /\ PyStr.digit_val (PyStr.digit_char d) = d.
Proof.
  intros Hd.
  assert (d = 0 \/ d = 1 \/ d = 2 \/ d = 3 \/ d = 4 \/ d = 5 \/ d = 6
          \/ d = 7 \/ d = 8 \/ d = 9) as Hcases by lia.
  repeat destruct Hcases as [-> | Hcases]; try subst d; split; reflexivity.
Qed.

Lemma isdigit_range (c : ascii) :
  PyStr.isdigit c = true -> 0 <= PyStr.digit_val c < 10.
Proof.
  unfold PyStr.isdigit, PyStr.digit_val.
  intros [H1 H2]%andb_true_iff.
  apply N.leb_le in H1. apply N.leb_le in H2. lia.
Qed.

Lemma isdigit_not_special (c : ascii) :
  PyStr.isdigit c = true ->
  PyStr.int_space c = false /\ Ascii.eqb c ":" = false
  /\ c <> "-"%char /\ c <> "+"%char.
Proof.
  intros H. rewrite Ascii.eqb_neq.
  assert (forall c', N_of_ascii c <> N_of_ascii c' -> c <> c') as Hne
    by (intros c' Hn ->; auto).
  unfold PyStr.isdigit in H. unfold PyStr.int_space.
  apply andb_true_iff in H as [H1 H2].
  apply N.leb_le in H1. apply N.leb_le in H2.
  repeat split; [|apply Hne; simpl; lia..].
  repeat match goal with
  | |- context [(?a <=? ?b)%N] => destruct (N.leb_spec a b)
  | |- context [(?a =? ?b)%N] => destruct (N.eqb_spec a b)
  end; simpl; try reflexivity; lia.
Qed.

(** Digit strings are left alone by the stripping of [int] and contain no
    colon. *)
Lemma lstrip_nonspace (space : ascii -> bool) (s : string) :
  all_chars (fun c => negb (space c)) s = true -> PyStr.lstrip_by space s = s.
Proof.
  destruct s as [|c r]; simpl; [reflexivity|].
  intros [Hc _]%andb_true_iff. apply negb_true_iff in Hc. now rewrite Hc.
Qed.

Lemma rstrip_nonspace (space : ascii -> bool) (s : string) :
  all_chars (fun c => negb (space c)) s = true -> PyStr.rstrip_by space s = s.
Proof.
  induction s as [|c r IH]; simpl; [reflexivity|].
  intros [Hc Hr]%andb_true_iff. apply negb_true_iff in Hc.
  rewrite (IH Hr), Hc. now destruct r.
Qed.

Lemma strip_digits (s : string) :
  all_chars PyStr.isdigit s = true -> PyStr.strip_by PyStr.int_space s = s.
Proof.
  intros H.
  assert (all_chars (fun c => negb (PyStr.int_space c)) s = true) as Hns.
  { revert H. apply all_chars_weaken. intros c Hc.
    apply isdigit_not_special in Hc as [-> _]. reflexivity. }
  unfold PyStr.strip_by. rewrite (lstrip_nonspace _ s Hns).
  now apply rstrip_nonspace.
Qed.

Lemma parse_digits_numeric (s : string) (acc : Z) (seen : bool) :
  all_chars PyStr.isdigit s = true -> s <> "" ->
  PyStr.parse_digits acc seen s = Some (dec_value acc s).
Proof.
  revert acc seen. induction s as [|c r IH]; intros acc seen Hall Hne;
    [congruence|].
  simpl in *. apply andb_true_iff in Hall as [Hc Hr]. rewrite Hc.
  destruct r as [|c' r']; [reflexivity|].
  now apply IH.
Qed.

Lemma int_numeric (s : string) :
  numeric s = true -> PyStr.int s = Ok (dec_value 0 s).
Proof.
  unfold numeric. intros [Hne Hall]%andb_true_iff.
  apply negb_true_iff, bool_decide_eq_false in Hne.
  unfold PyStr.int. rewrite (strip_digits s Hall).
  assert (PyStr.parse_digits 0 false s = Some (dec_value 0 s)) as Hp
    by now apply parse_digits_numeric.
  destruct s as [|c r]; [congruence|].
  simpl in Hall. apply andb_true_iff in Hall as [Hc _].
  apply isdigit_not_special in Hc as (_ & _ & Hm & Hp').
  assert (match String c r with
          | String "-" r0 => Z.opp <$> PyStr.parse_digits 0 false r0
          | String "+" r0 => PyStr.parse_digits 0 false r0
          | _ => PyStr.parse_digits 0 false (String c r)
          end = PyStr.parse_digits 0 false (String c r)) as ->.
  { destruct c as [[] [] [] [] [] [] [] []]; try reflexivity; congruence. }
  now rewrite Hp.
Qed.

(** Decimal printing: enough fuel, and the two equations of [str_nat]. *)
Lemma digits_fuel_acc (f : nat) (n : Z) (acc : string) :
  PyStr.digits_fuel f n acc = PyStr.digits_fuel f n "" +:+ acc.
Proof.
  revert n acc. induction f as [|f IH]; intros n acc; [reflexivity|].
  simpl. destruct (n <? 10); [reflexivity|].
  rewrite IH, (IH _ (String _ "")), append_assoc. reflexivity.
Qed.

Lemma pow2_succ (k : nat) : 2 ^ Z.of_nat (S k) = 2 * 2 ^ Z.of_nat k.
Proof. rewrite Nat2Z.inj_succ. apply Z.pow_succ_r. lia. Qed.

Lemma digits_fuel_enough (f1 f2 : nat) (n : Z) (acc : string) :
  0 <= n < 2 ^ Z.of_nat (S f1) -> n < 2 ^ Z.of_nat (S f2) ->
  PyStr.digits_fuel (S f1) n acc = PyStr.digits_fuel (S f2) n acc.
Proof.
  revert f2 n acc. induction f1 as [|f1 IH]; intros f2 n acc H1 H2.
  - change (2 ^ Z.of_nat 1) with 2 in H1.
    simpl. destruct (Z.ltb_spec n 10); [reflexivity | lia].
  - cbn [PyStr.digits_fuel]. destruct (Z.ltb_spec n 10) as [|Hge]; [reflexivity|].
    destruct f2 as [|f2].
    { change (2 ^ Z.of_nat 1) with 2 in H2. lia. }
    rewrite pow2_succ in H1, H2.
    assert (0 < 2 ^ Z.of_nat (S f1)) by (apply Z.pow_pos_nonneg; lia).
    assert (0 < 2 ^ Z.of_nat (S f2)) by (apply Z.pow_pos_nonneg; lia).
    apply IH.
    + split; [apply Z.div_pos; lia|]. apply Z.div_lt_upper_bound; lia.
    + apply Z.div_lt_upper_bound; lia.
Qed.

Lemma log2_fuel (n : Z) :
  0 <= n -> n < 2 ^ Z.of_nat (S (Z.to_nat (Z.log2 n))).
Proof.
  intros Hn. rewrite Nat2Z.inj_succ, Z2Nat.id by apply Z.log2_nonneg.
  destruct (Z.eq_dec n 0) as [-> | Hnz]; [reflexivity|].
  apply Z.log2_spec. lia.
Qed.

Lemma str_nat_small (n : Z) :
  0 <= n < 10 -> PyStr.str_nat n = String (PyStr.digit_char n) "".
Proof.
  intros Hn. unfold PyStr.str_nat. simpl.
  destruct (Z.ltb_spec n 10); [|lia].
  rewrite Z.mod_small by lia. reflexivity.
Qed.

Lemma str_nat_step (n : Z) :
  10 <= n ->
  PyStr.str_nat n
  = PyStr.str_nat (n / 10) +:+ String (PyStr.digit_char (n mod 10)) "".
Proof.
  intros Hn. unfold PyStr.str_nat at 1.
  pose proof (log2_fuel n ltac:(lia)) as Hfuel.
  cbn [PyStr.digits_fuel]. destruct (Z.ltb_spec n 10); [lia|].
  rewrite digits_fuel_acc. f_equal.
  destruct (Z.to_nat (Z.log2 n)) as [|f] eqn:Hf.
  { change (2 ^ Z.of_nat 1) with 2 in Hfuel. lia. }
  rewrite pow2_succ in Hfuel.
  assert (0 < 2 ^ Z.of_nat (S f)) by (apply Z.pow_pos_nonneg; lia).
  unfold PyStr.str_nat. apply digits_fuel_enough.
  - split; [apply Z.div_pos; lia|]. apply Z.div_lt_upper_bound; lia.
  - apply log2_fuel. apply Z.div_pos; lia.
Qed.

Lemma dec_value_app (acc : Z) (s1 s2 : string) :
  dec_value acc (s1 +:+ s2) = dec_value (dec_value acc s1) s2.
Proof.
  revert acc. induction s1 as [|c r IH]; intros acc; [reflexivity|].
  rewrite append_cons. simpl. apply IH.
Qed.

Lemma numeric_alt (s : string) :
  numeric s = true <-> s <> "" /\ all_chars PyStr.isdigit s = true.
Proof.
  unfold numeric. rewrite andb_true_iff, negb_true_iff, bool_decide_eq_false.
  reflexivity.
Qed.

(** [str] prints a number that [int] reads back. *)
Lemma str_nat_spec (n : Z) :
  0 <= n ->
  numeric (PyStr.str_nat n) = true /\ dec_value 0 (PyStr.str_nat n) = n.
Proof.
  induction n as [n IH] using (well_founded_induction (Z.lt_wf 0)).
  intros Hn. destruct (Z_lt_ge_dec n 10) as [Hlt | Hge].
  - rewrite str_nat_small by lia.
    destruct (digit_char_facts n ltac:(lia)) as [Hd Hv].
    split; [apply numeric_alt; simpl; rewrite Hd; split; done|].
    simpl. lia.
  - rewrite str_nat_step by lia.
    assert (0 <= n / 10 < n) as Hq.
    { split; [apply Z.div_pos; lia|]. apply Z.div_lt; lia. }
    destruct (IH (n / 10) ltac:(lia) ltac:(lia)) as [Hnum Hval].
    pose proof (Z.mod_pos_bound n 10 ltac:(lia)) as Hm.
    destruct (digit_char_facts (n mod 10) Hm) as [Hd Hv].
    apply numeric_alt in Hnum as [Hne Hall].
    split.
    + apply numeric_alt. split.
      * destruct (PyStr.str_nat (n / 10)); [congruence | done].
      * rewrite all_chars_app, Hall. simpl. now rewrite Hd.
    + rewrite dec_value_app, Hval. simpl. rewrite Hv.
      pose proof (Z.div_mod n 10 ltac:(lia)). lia.
Qed.

Lemma str_nat_length (n : Z) : 0 <= n -> (1 <= String.length (PyStr.str_nat n))%nat.
Proof.
  intros Hn. destruct (str_nat_spec n Hn) as [[Hne _]%numeric_alt _].
  destruct (PyStr.str_nat n); [congruence | simpl; lia].
Qed.

Lemma zeros_spec (k : nat) :
  all_chars PyStr.isdigit (PyStr.zeros k) = true
  /\ String.length (PyStr.zeros k) = k
  /\ forall s, dec_value 0 (PyStr.zeros k +:+ s) = dec_value 0 s.
Proof.
  induction k as [|k (IH1 & IH2 & IH3)]; [done|].
  simpl. rewrite IH1, IH2. repeat split. intros s. exact (IH3 s).
Qed.

(** What [format(n, "0w")] yields for a non-negative [n]. *)
Lemma format_0w_nonneg (w : nat) (n : Z) :
  0 <= n ->
  numeric (PyStr.format_0w w n) = true
  /\ dec_value 0 (PyStr.format_0w w n) = n
  /\ (w <= String.length (PyStr.format_0w w n))%nat.
Proof.
  intros Hn. unfold PyStr.format_0w.
  destruct (Z.ltb_spec n 0); [lia|]. rewrite Z.abs_eq by lia.
  rewrite append_nil_l.
  destruct (str_nat_spec n Hn) as [[Hne Hall]%numeric_alt Hval].
  destruct (zeros_spec (w - String.length "" - String.length (PyStr.str_nat n)))
    as (Z1 & Z2 & Z3).
  repeat split.
  - apply numeric_alt. split.
    + intros Heq. apply (f_equal String.length) in Heq.
      rewrite append_length in Heq. pose proof (str_nat_length n Hn).
      simpl in Heq. lia.
    + now rewrite all_chars_app, Z1, Hall.
  - now rewrite Z3.
  - rewrite append_length, Z2. simpl. lia.
Qed.

Lemma format_two_digits (n : Z) :
  0 <= n < 100 -> PyStr.format_0w 2 n = two_digits n.
Proof.
  intros Hn. unfold PyStr.format_0w, two_digits.
  destruct (Z.ltb_spec n 0); [lia|]. rewrite Z.abs_eq by lia.
  destruct (Z_lt_ge_dec n 10).
  - rewrite str_nat_small by lia. rewrite Z.div_small, Z.mod_small by lia.
    reflexivity.
  - rewrite str_nat_step by lia.
    assert (0 <= n / 10 < 10).
    { split; [apply Z.div_pos; lia|]. apply Z.div_lt_upper_bound; lia. }
    rewrite str_nat_small by lia. reflexivity.
Qed.

Lemma format_negative (n : Z) :
  n < 0 -> PyStr.format_0w 2 n = "-" +:+ PyStr.str_nat (- n).
Proof.
  intros Hn. unfold PyStr.format_0w.
  destruct (Z.ltb_spec n 0); [|lia]. rewrite Z.abs_neq by lia.
  pose proof (str_nat_length (- n) ltac:(lia)) as Hlen.
  replace (2 - String.length "-" - String.length (PyStr.str_nat (- n)))%nat
    with 0%nat by (simpl; lia).
  reflexivity.
Qed.

(** ** Facts about the Duration Calculator *)

Lemma split_colon_digits (s : string) :
  all_chars PyStr.isdigit s = true -> PyStr.split_colon s = [s].
Proof.
  induction s as [|c r IH]; [reflexivity|].
  simpl. intros [Hc Hr]%andb_true_iff.
  apply isdigit_not_special in Hc as (_ & -> & _).
  now rewrite (IH Hr).
Qed.

Lemma split_colon_app (s1 s2 : string) :
  all_chars PyStr.isdigit s1 = true ->
  PyStr.split_colon (s1 +:+ String ":" s2) = s1 :: PyStr.split_colon s2.
Proof.
  induction s1 as [|c r IH]; [reflexivity|].
  intros Hall. simpl in Hall. apply andb_true_iff in Hall as [Hc Hr].
  apply isdigit_not_special in Hc as (_ & Hcolon & _).
  rewrite append_cons. cbn [PyStr.split_colon]. rewrite Hcolon.
  now rewrite (IH Hr).
Qed.

Lemma positional_snoc (l : list Z) (x : Z) :
  positional (l ++ [x]) = 60 * positional l + x.
Proof.
  induction l as [|y l IH]; [simpl; lia|].
  cbn [app positional]. rewrite IH, length_app, Nat.add_1_r.
  rewrite Nat2Z.inj_succ, Z.pow_succ_r by lia. lia.
Qed.

Lemma result_bind_ok {A B} (a : A) (k : A -> result B) :
  (Ok a ≫= k) = k a.
Proof. reflexivity. Qed.

Lemma sum_fields_numeric (xs : list string) (acc : Z) (i : nat) :
  forallb numeric xs = true ->
  sum_fields acc i xs
  = Ok (acc + 60 ^ Z.of_nat i * positional (map (dec_value 0) (rev xs))).
Proof.
  revert acc i. induction xs as [|x r IH]; intros acc i Hall.
  - simpl. f_equal. lia.
  - simpl in Hall. apply andb_true_iff in Hall as [Hx Hr].
    cbn [sum_fields]. rewrite (int_numeric x Hx), result_bind_ok.
    rewrite (IH _ _ Hr). f_equal.
    cbn [rev]. rewrite map_app. cbn [map]. rewrite positional_snoc.
    rewrite Nat2Z.inj_succ, Z.pow_succ_r by lia. lia.
Qed.

Lemma forallb_rev {A} (p : A -> bool) (l : list A) :
  forallb p (rev l) = forallb p l.
Proof.
  induction l as [|x l IH]; [reflexivity|].
  cbn [rev]. rewrite forallb_app, IH. simpl. rewrite andb_true_r.
  apply andb_comm.
Qed.

(** On numeric timestamps the code computes the base-60 positional value. *)
Lemma to_seconds_numeric (t : string) :
  numeric_timestamp t = true -> to_seconds t = Ok (timestamp_seconds t).
Proof.
  unfold numeric_timestamp, to_seconds, timestamp_seconds. intros H.
  rewrite sum_fields_numeric by now rewrite forallb_rev.
  rewrite rev_involutive. f_equal. simpl. lia.
Qed.

Lemma accumulate_valid (items : clips) (total : Z) :
  Forall valid_entry items ->
  accumulate total items = Ok (total + clip_seconds_sum items).
Proof.
  intros Hall. revert total.
  induction Hall as [|[name [st en]] r [Hs He] _ IH]; intros total.
  - simpl. f_equal. lia.
  - simpl in Hs, He. cbn [accumulate clip_seconds_sum].
    rewrite (to_seconds_numeric _ Hs), result_bind_ok.
    rewrite (to_seconds_numeric _ He), result_bind_ok.
    rewrite IH. f_equal. lia.
Qed.

Lemma calculate_total_duration_valid (clips_dict : clips) :
  Forall valid_entry clips_dict ->
  calculate_total_duration clips_dict
  = Ok (format_duration (clip_seconds_sum clips_dict)).
Proof.
  intros H. unfold calculate_total_duration.
  rewrite (accumulate_valid _ _ H), result_bind_ok. reflexivity.
Qed.

Lemma clip_seconds_sum_app (l1 l2 : clips) :
  clip_seconds_sum (l1 ++ l2) = clip_seconds_sum l1 + clip_seconds_sum l2.
Proof.
  induction l1 as [|[name [st en]] r IH]; [reflexivity|].
  cbn [app clip_seconds_sum]. lia.
Qed.

Lemma clip_seconds_sum_nonneg (items : clips) :
  Forall increasing_entry items -> 0 <= clip_seconds_sum items.
Proof.
  induction 1 as [|[name [st en]] r Hinc _ IH]; [reflexivity|].
  unfold increasing_entry in Hinc. simpl in *. lia.
Qed.

Lemma minutes_seconds_range (total : Z) :
  0 <= total mod 3600 / 60 < 60 /\ 0 <= total mod 60 < 60
  /\ total = total / 3600 * 3600 + total mod 3600 / 60 * 60 + total mod 60.
Proof.
  pose proof (Z.mod_pos_bound total 3600 ltac:(lia)) as H1.
  pose proof (Z.mod_pos_bound total 60 ltac:(lia)) as H2.
  pose proof (Z.div_mod total 3600 ltac:(lia)) as H3.
  pose proof (Z.div_mod (total mod 3600) 60 ltac:(lia)) as H4.
  assert ((total mod 3600) mod 60 = total mod 60) as H5.
  { apply Z.mod_mod_divide. exists 60. reflexivity. }
  repeat split; lia.
Qed.

Lemma format_duration_fields (total : Z) :
  format_duration total
  = PyStr.format_0w 2 (total / 3600) +:+ ":"
      +:+ two_digits (total mod 3600 / 60) +:+ ":"
      +:+ two_digits (total mod 60).
Proof.
  destruct (minutes_seconds_range total) as (Hm & Hs & _).
  unfold format_duration.
  rewrite (format_two_digits (total mod 3600 / 60)) by lia.
  rewrite (format_two_digits (total mod 60)) by lia. reflexivity.
Qed.

Lemma two_digits_numeric (n : Z) :
  0 <= n < 100 ->
  numeric (two_digits n) = true /\ dec_value 0 (two_digits n) = n.
Proof.
  intros Hn. rewrite <- format_two_digits by lia.
  destruct (format_0w_nonneg 2 n ltac:(lia)) as (? & ? & _). auto.
Qed.

(** Three numeric fields joined by colons are read back field by field. *)
Lemma to_seconds_three_fields (h m s : string) :
  numeric h = true -> numeric m = true -> numeric s = true ->
  to_seconds (h +:+ ":" +:+ m +:+ ":" +:+ s)
  = Ok (dec_value 0 h * 3600 + dec_value 0 m * 60 + dec_value 0 s).
Proof.
  intros Hh Hm Hs.
  assert (PyStr.split_colon (h +:+ ":" +:+ m +:+ ":" +:+ s) = [h; m; s]) as Hsplit.
  { apply numeric_alt in Hh as [_ Hh]. apply numeric_alt in Hm as [_ Hm].
    apply numeric_alt in Hs as [_ Hs].
    change (":" +:+ m +:+ ":" +:+ s) with (String ":" (m +:+ String ":" s)).
    rewrite (split_colon_app _ _ Hh), (split_colon_app _ _ Hm).
    now rewrite (split_colon_digits _ Hs). }
  rewrite to_seconds_numeric.
  - unfold timestamp_seconds. rewrite Hsplit. cbn [map positional length].
    change (60 ^ Z.of_nat 2) with 3600. change (60 ^ Z.of_nat 1) with 60.
    change (60 ^ Z.of_nat 0) with 1. f_equal. lia.
  - unfold numeric_timestamp. rewrite Hsplit. simpl.
    now rewrite Hh, Hm, Hs.
Qed.

Lemma to_seconds_format (total : Z) :
  0 <= total -> to_seconds (format_duration total) = Ok total.
Proof.
  intros Ht. rewrite format_duration_fields.
  destruct (minutes_seconds_range total) as (Hm & Hs & Htot).
  assert (0 <= total / 3600) as Hh by (apply Z.div_pos; lia).
  destruct (format_0w_nonneg 2 _ Hh) as (Nh & Vh & _).
  destruct (two_digits_numeric (total mod 3600 / 60) ltac:(lia)) as [Nm Vm].
  destruct (two_digits_numeric (total mod 60) ltac:(lia)) as [Ns Vs].
  rewrite (to_seconds_three_fields _ _ _ Nh Nm Ns), Vh, Vm, Vs.
  f_equal. lia.
Qed.

(** C3. When every entry of the Clip Request Set has colon-separated
    numeric timestamps and an end after its start (both read in base 60,
    the rightmost field weighted by 1), [calculate_total_duration] returns
    the sum over the entries of [end_seconds - start_seconds], written as
    hours : minutes : seconds. Minutes and seconds are two zero-padded
    digits below 60; the hours field is the whole quotient by 3600, with no
    modulus: it has at least two digits and grows beyond two when the
    quotient exceeds 99. *)
Theorem calculate_total_duration_sum (clips_dict : clips) :
  Forall valid_entry clips_dict ->
  Forall increasing_entry clips_dict ->
  let total := clip_seconds_sum clips_dict in
  exists hours_field : string,
    calculate_total_duration clips_dict
    = Ok (hours_field +:+ ":" +:+ two_digits (total mod 3600 / 60)
            +:+ ":" +:+ two_digits (total mod 60))
    /\ numeric hours_field = true
    /\ PyStr.int hours_field = Ok (total / 3600)
    /\ (2 <= String.length hours_field)%nat
    /\ (total / 3600 < 100 -> hours_field = two_digits (total / 3600))
    /\ (100 <= total / 3600 -> (3 <= String.length hours_field)%nat)
    /\ 0 <= total mod 3600 / 60 < 60
    /\ 0 <= total mod 60 < 60
    /\ total = total / 3600 * 3600 + total mod 3600 / 60 * 60 + total mod 60.
Proof.
  intros Hvalid Hinc total.
  pose proof (clip_seconds_sum_nonneg _ Hinc) as Hnonneg. fold total in Hnonneg.
  assert (0 <= total / 3600) as Hh by (apply Z.div_pos; lia).
  destruct (format_0w_nonneg 2 _ Hh) as (Nh & Vh & Lh).
  destruct (minutes_seconds_range total) as (Hm & Hs & Htot).
  exists (PyStr.format_0w 2 (total / 3600)).
  split; [|split; [|split; [|split; [|split; [|split]]]]]; auto.
  - rewrite (calculate_total_duration_valid _ Hvalid).
    now rewrite format_duration_fields.
  - rewrite (int_numeric _ Nh). now rewrite Vh.
  - intros Hlt. apply format_two_digits. lia.
  - intros Hge. apply numeric_alt in Nh as [_ Hall].
    remember (PyStr.format_0w 2 (total / 3600)) as hf eqn:Hhf.
    destruct hf as [|a [|b [|c r]]]; simpl in *; try lia.
    apply andb_true_iff in Hall as [Ha Hb%andb_true_iff].
    destruct Hb as [Hb _].
    apply isdigit_range in Ha, Hb. lia.
Qed.

Lemma calculate_total_duration_sum_witness :
  Forall valid_entry demo_clips
  /\ Forall increasing_entry demo_clips
  /\ exists hours_field : string,
       calculate_total_duration demo_clips = Ok (hours_field +:+ ":00:15")
       /\ PyStr.int hours_field = Ok 0.
Proof.
  assert (Forall valid_entry demo_clips) as Hvalid by (repeat constructor).
  assert (Forall increasing_entry demo_clips) as Hinc by (repeat constructor).
  split; [exact Hvalid|]. split; [exact Hinc|].
  destruct (calculate_total_duration_sum demo_clips Hvalid Hinc)
    as (hours_field & Heq & _ & Hint & _).
  exists hours_field. split; [exact Heq | exact Hint].
Defined.

(** The scenarios of the specification, and an hours field above 99. *)
Example duration_two_clips :
  calculate_total_duration
    [("a.mp4", ("00:00:10", "00:00:20")); ("b.mp4", ("00:00:00", "00:00:05"))]
  = Ok "00:00:15".
Proof. reflexivity. Qed.

Example duration_one_clip :
  calculate_total_duration [("only.mp4", ("00:01:00", "00:02:30"))]
  = Ok "00:01:30".
Proof. reflexivity. Qed.

Example duration_hours_above_99 :
  calculate_total_duration [("long.mp4", ("00:00:00", "123:04:05"))]
  = Ok "123:04:05".
Proof. reflexivity. Qed.

Example duration_malformed :
  calculate_total_duration [("a.mp4", ("00:00:xx", "00:00:20"))]
  = Raise ValueError.
Proof. reflexivity. Qed.

(** C9. For [0 <= H], [0 <= M < 60] and [0 <= S < 60], the second count
    [H*3600 + M*60 + S] is formatted as the zero-padded fields H, M, S, and
    reading that string back with the base-60 positional scheme gives the
    second count again. *)
Theorem format_then_parse (H M S : Z) :
  0 <= H -> 0 <= M < 60 -> 0 <= S < 60 ->
  format_duration (H * 3600 + M * 60 + S)
  = PyStr.format_0w 2 H +:+ ":" +:+ two_digits M +:+ ":" +:+ two_digits S
  /\ to_seconds (format_duration (H * 3600 + M * 60 + S))
     = Ok (H * 3600 + M * 60 + S).
Proof.
  intros HH HM HS. split; [|apply to_seconds_format; lia].
  rewrite format_duration_fields.
  replace ((H * 3600 + M * 60 + S) / 3600) with H
    by (apply Z.div_unique with (M * 60 + S); lia).
  replace ((H * 3600 + M * 60 + S) mod 3600) with (M * 60 + S)
    by (apply Z.mod_unique with H; lia).
  replace ((M * 60 + S) / 60) with M
    by (apply Z.div_unique with S; lia).
  replace ((H * 3600 + M * 60 + S) mod 60) with S
    by (apply Z.mod_unique with (H * 60 + M); lia).
  reflexivity.
Qed.

Lemma format_then_parse_witness :
  format_duration (123 * 3600 + 4 * 60 + 5) = "123:04:05"
  /\ to_seconds "123:04:05" = Ok (123 * 3600 + 4 * 60 + 5).
Proof.
  exact (format_then_parse 123 4 5 ltac:(lia) ltac:(lia) ltac:(lia)).
Defined.

(** C10. With numeric timestamps in any order, [calculate_total_duration]
    raises nothing and returns the formatted sum of the differences, so an
    entry whose end is before its start adds its negative difference. When
    the sum is negative the hours field is the negative floor of
    total/3600 behind a minus sign, and minutes and seconds are still two
    digits in [0, 60); a total of -10 seconds is written -1:59:50. *)
Theorem calculate_total_duration_negative (clips_dict : clips) :
  Forall valid_entry clips_dict ->
  let total := clip_seconds_sum clips_dict in
  calculate_total_duration clips_dict = Ok (format_duration total)
  /\ (forall pre name start_time end_time post,
        clips_dict = pre ++ (name, (start_time, end_time)) :: post ->
        timestamp_seconds end_time < timestamp_seconds start_time ->
        to_seconds start_time = Ok (timestamp_seconds start_time)
        /\ to_seconds end_time = Ok (timestamp_seconds end_time)
        /\ timestamp_seconds end_time - timestamp_seconds start_time < 0
        /\ total = clip_seconds_sum pre
                   + (timestamp_seconds end_time - timestamp_seconds start_time)
                   + clip_seconds_sum post)
  /\ (total < 0 ->
        total / 3600 < 0
        /\ 0 <= total mod 3600 / 60 < 60
        /\ 0 <= total mod 60 < 60
        /\ format_duration total
           = "-" +:+ PyStr.str_nat (- (total / 3600)) +:+ ":"
               +:+ two_digits (total mod 3600 / 60) +:+ ":"
               +:+ two_digits (total mod 60))
  /\ format_duration (-10) = "-1:59:50".
Proof.
  intros Hvalid total. split; [|split; [|split]].
  - now apply calculate_total_duration_valid.
  - intros pre name st en post -> Hlt.
    apply Forall_app in Hvalid as [_ Hvalid].
    apply Forall_cons in Hvalid as [[Hs He] _]. simpl in Hs, He.
    split; [now apply to_seconds_numeric|].
    split; [now apply to_seconds_numeric|].
    split; [lia|]. unfold total.
    rewrite clip_seconds_sum_app. cbn [clip_seconds_sum]. lia.
  - intros Hneg.
    destruct (minutes_seconds_range total) as (Hm & Hs & Htot).
    assert (total / 3600 < 0) as Hh by (apply Z.div_lt_upper_bound; lia).
    repeat split; try lia.
    rewrite format_duration_fields, (format_negative _ Hh).
    now rewrite append_assoc.
  - reflexivity.
Qed.

Lemma calculate_total_duration_negative_witness :
  Forall valid_entry [("a.mp4", ("00:00:20", "00:00:10"))]
  /\ calculate_total_duration [("a.mp4", ("00:00:20", "00:00:10"))]
     = Ok "-1:59:50".
Proof.
  assert (Forall valid_entry [("a.mp4", ("00:00:20", "00:00:10"))]) as Hv
    by (repeat constructor).
  split; [exact Hv|].
  exact (proj1 (calculate_total_duration_negative _ Hv)).
Defined.

(** ** Facts about the cleanup loop *)

Lemma bind_unfold {A B} (m : M A) (k : A -> M B) (w : World) :
  (m ≫= k) w
  = match m w with
    | (Ok a, w1) => k a w1
    | (Raise e, w1) => (Raise e, w1)
    end.
Proof. reflexivity. Qed.

Lemma cleanup_eq (l : list string) (w : World) :
  cleanup l w
  = (Ok tt, mkWorld (remove_all l (files w))
                    (trace w ++ cleanup_events (files w) l)).
Proof.
  revert w. induction l as [|path r IH]; intros [fs tr].
  - simpl. unfold mret, M_ret. now rewrite app_nil_r.
  - cbn [cleanup]. rewrite bind_unfold. unfold os_path_exists.
    cbn [files trace cleanup_events remove_all foldl].
    destruct (fs !! path) as [content|] eqn:Hlook.
    + rewrite bool_decide_eq_true_2 by eauto.
      rewrite bind_unfold. unfold os_remove, log. cbn [files trace].
      rewrite Hlook, IH. cbn [files trace]. unfold remove_all.
      now rewrite <- !app_assoc.
    + rewrite bool_decide_eq_false_2 by (intros [? ?]; congruence).
      rewrite bind_unfold. unfold mret, M_ret, log. cbn [files trace].
      rewrite IH. cbn [files trace]. unfold remove_all.
      rewrite (delete_id fs path Hlook). now rewrite <- !app_assoc.
Qed.

Lemma remove_all_notin (l : list string) (fs : gmap string string) (path : string) :
  path ∉ l -> remove_all l fs !! path = fs !! path.
Proof.
  revert fs. induction l as [|q r IH]; intros fs Hnot; [reflexivity|].
  apply not_elem_of_cons in Hnot as [Hne Hnot].
  unfold remove_all in *. cbn [foldl]. rewrite (IH _ Hnot).
  now apply lookup_delete_ne.
Qed.

Lemma remove_all_none (l : list string) (fs : gmap string string) (path : string) :
  fs !! path = None -> remove_all l fs !! path = None.
Proof.
  revert fs. induction l as [|q r IH]; intros fs Hnone; [exact Hnone|].
  unfold remove_all in *. cbn [foldl]. apply IH.
  rewrite lookup_delete. case_decide; congruence.
Qed.

Lemma remove_all_in (l : list string) (fs : gmap string string) (path : string) :
  path ∈ l -> remove_all l fs !! path = None.
Proof.
  revert fs. induction l as [|q r IH]; intros fs Hin; [inversion Hin|].
  unfold remove_all in *. cbn [foldl].
  destruct (decide (path = q)) as [-> | Hne].
  - apply (remove_all_none r). apply lookup_delete_eq.
  - apply IH. apply elem_of_cons in Hin as [? | ?]; congruence.
Qed.

Lemma cleanup_events_only (l : list string) (fs : gmap string string) :
  Forall is_cleanup (cleanup_events fs l).
Proof.
  revert fs. induction l as [|path r IH]; intros fs; [constructor|].
  cbn [cleanup_events]. case_bool_decide; repeat constructor; apply IH.
Qed.

Lemma cleanup_events_checked (l : list string) (fs : gmap string string) (path : string) :
  path ∈ l -> exists found, EExists path found ∈ cleanup_events fs l.
Proof.
  revert fs. induction l as [|q r IH]; intros fs Hin; [inversion Hin|].
  cbn [cleanup_events]. apply elem_of_cons in Hin as [-> | Hin].
  - case_bool_decide; eexists; left.
  - case_bool_decide; destruct (IH (delete q fs) Hin) as [b1 H1];
      destruct (IH fs Hin) as [b2 H2]; eexists; repeat right; eassumption.
Qed.

Lemma calls_app (t1 t2 : list event) : calls (t1 ++ t2) = calls t1 ++ calls t2.
Proof. apply omap_app. Qed.

Lemma calls_cleanup (evs : list event) : Forall is_cleanup evs -> calls evs = [].
Proof.
  induction 1 as [|e r He _ IH]; [reflexivity|].
  destruct e; simpl in He; try contradiction; exact IH.
Qed.

(** ** Facts about the Clip Cutter, the Clip Combiner and the loop of cuts *)

Section ScriptFacts.

Context (spawn : list string -> World -> Z * gmap string string).
Context (path_join : string -> string -> string).
Context (video_folder final_output_file : string).

Local Abbreviation cut_path' := (cut_path path_join video_folder).
Local Abbreviation cut_paths' := (cut_paths path_join video_folder).
Local Abbreviation cut_call' := (cut_call path_join video_folder).
Local Abbreviation cut_command_of' := (cut_command_of path_join video_folder).
Local Abbreviation cut_events' := (cut_events path_join video_folder).
Local Abbreviation before_cut' := (before_cut path_join video_folder).
Local Abbreviation cut_loop' := (cut_loop spawn path_join video_folder).
Local Abbreviation finish' := (finish spawn final_output_file).
Local Abbreviation main' := (main spawn path_join video_folder final_output_file).
Local Abbreviation run_script' :=
  (run_script spawn path_join video_folder final_output_file).
Local Abbreviation after_run' := (after_run spawn).
Local Abbreviation before_combine' := (before_combine final_output_file).

Lemma subprocess_run_eq (command : list string) (w : World) :
  subprocess_run spawn command w
  = (if (spawn command w).1 =? 0 then Ok tt
     else Raise (CalledProcessError (spawn command w).1 command),
     after_run' command w).
Proof.
  unfold subprocess_run, after_run. destruct (spawn command w) as [rc fs].
  simpl. now destruct (rc =? 0).
Qed.

Lemma cut_video_eq (i o s e : string) (w : World) :
  cut_video spawn i o s e w
  = subprocess_run spawn (cut_command i o s e)
      (log (ECall (CutVideo i o s e)) w).
Proof. reflexivity. Qed.

Lemma combine_videos_eq (input_files : list string) (out : string) (w : World) :
  combine_videos spawn input_files out w
  = subprocess_run spawn (combine_command input_files out)
      (log (ECall (CombineVideos input_files out)) w).
Proof. reflexivity. Qed.

Lemma cut_loop_step (acc : list string) (item : string * (string * string))
    (rest : clips) (w : World) :
  cut_loop' acc (item :: rest) w
  = match subprocess_run spawn (cut_command_of' item) (before_cut' item w) with
    | (Ok _, w1) => cut_loop' (acc ++ [cut_path' item.1]) rest w1
    | (Raise e, w1) => (Raise e, w1)
    end.
Proof. destruct item as [name [st en]]. reflexivity. Qed.

Lemma cut_loop_app (acc : list string) (pre post : clips) (w : World) :
  cut_loop' acc (pre ++ post) w
  = match cut_loop' acc pre w with
    | (Ok cut_files, w1) => cut_loop' cut_files post w1
    | (Raise e, w1) => (Raise e, w1)
    end.
Proof.
  revert acc w. induction pre as [|item pre IH]; intros acc w; [reflexivity|].
  cbn [app]. rewrite !cut_loop_step.
  destruct (subprocess_run spawn _ _) as [[[]|e] w1]; [apply IH | reflexivity].
Qed.

Lemma cut_paths_app (l1 l2 : clips) :
  cut_paths' (l1 ++ l2) = cut_paths' l1 ++ cut_paths' l2.
Proof. apply map_app. Qed.

Lemma trace_before_cut (item : string * (string * string)) (w : World) :
  trace (before_cut' item w)
  = trace w ++ [EWrite (cut_message item); ECall (cut_call' item)].
Proof. unfold before_cut, log. simpl. now rewrite <- app_assoc. Qed.

Lemma files_before_cut (item : string * (string * string)) (w : World) :
  files (before_cut' item w) = files w.
Proof. reflexivity. Qed.

(** The loop of cuts either completes, having run one command with status
    zero per entry, or stops at the first entry whose command exits with
    another status. *)
Lemma cut_loop_cases (items : clips) (acc : list string) (w : World) :
  (exists w1,
      cut_loop' acc items w = (Ok (acc ++ cut_paths' items), w1)
      /\ trace w1 = trace w ++ flat_map cut_events' items)
  \/ (exists pre item post wpre,
        items = pre ++ item :: post
        /\ cut_loop' acc pre w = (Ok (acc ++ cut_paths' pre), wpre)
        /\ trace wpre = trace w ++ flat_map cut_events' pre
        /\ (spawn (cut_command_of' item) (before_cut' item wpre)).1 <> 0
        /\ cut_loop' acc items w
           = (Raise (CalledProcessError
                       (spawn (cut_command_of' item) (before_cut' item wpre)).1
                       (cut_command_of' item)),
              after_run' (cut_command_of' item) (before_cut' item wpre))).
Proof.
  revert acc w. induction items as [|item rest IH]; intros acc w.
  - left. exists w. simpl. unfold mret, M_ret. now rewrite !app_nil_r.
  - rewrite cut_loop_step, subprocess_run_eq.
    destruct (Z.eqb_spec (spawn (cut_command_of' item) (before_cut' item w)).1 0)
      as [Hz | Hnz].
    + destruct (IH (acc ++ [cut_path' item.1])
                   (after_run' (cut_command_of' item) (before_cut' item w)))
        as [(w1 & Hrun & Htr) | (pre & it & post & wpre & -> & Hpre & Htr & Hrc & Hrun)].
      * left. exists w1. split.
        { rewrite Hrun. cbn [cut_paths map]. now rewrite <- app_assoc. }
        rewrite Htr. unfold after_run. cbn [trace flat_map].
        rewrite trace_before_cut, Hz. unfold cut_events.
        now rewrite <- !app_assoc.
      * right. exists (item :: pre), it, post, wpre.
        split; [reflexivity|]. split; [|split; [|split; [exact Hrc|]]].
        { rewrite cut_loop_step, subprocess_run_eq.
          rewrite (proj2 (Z.eqb_eq _ _) Hz), Hpre.
          cbn [cut_paths map]. now rewrite <- app_assoc. }
        { rewrite Htr. unfold after_run. cbn [trace flat_map].
          rewrite trace_before_cut, Hz. unfold cut_events.
          now rewrite <- !app_assoc. }
        exact Hrun.
    + right. exists [], item, rest, w.
      split; [reflexivity|]. split; [|split; [|split; [exact Hnz|reflexivity]]].
      * simpl. unfold mret, M_ret. now rewrite app_nil_r.
      * simpl. now rewrite app_nil_r.
Qed.

Lemma cut_loop_succeeds (items : clips) (acc : list string) (w : World) :
  cuts_succeed spawn ->
  exists w1,
    cut_loop' acc items w = (Ok (acc ++ cut_paths' items), w1)
    /\ trace w1 = trace w ++ flat_map cut_events' items.
Proof.
  intros Hok.
  destruct (cut_loop_cases items acc w)
    as [H | (pre & it & post & wpre & _ & _ & _ & Hrc & _)]; [exact H|].
  exfalso. apply Hrc. apply Hok.
Qed.

Lemma calls_cut_events (items : clips) :
  calls (flat_map cut_events' items) = map cut_call' items.
Proof.
  induction items as [|item r IH]; [reflexivity|].
  cbn [flat_map map]. rewrite calls_app, IH. reflexivity.
Qed.

Lemma undisturbed_cut_events (items : clips) :
  Forall undisturbed (flat_map cut_events' items).
Proof.
  induction items as [|item r IH]; [constructor|].
  cbn [flat_map]. apply Forall_app. split; [|exact IH].
  repeat constructor.
Qed.

Lemma runs_app (t1 t2 : list event) : runs (t1 ++ t2) = runs t1 ++ runs t2.
Proof. apply omap_app. Qed.

Lemma calls_single (e : event) :
  calls [e] = match e with ECall c => [c] | _ => [] end.
Proof. now destruct e. Qed.

Lemma runs_single (e : event) :
  runs [e] = match e with ERun command _ => [command] | _ => [] end.
Proof. now destruct e. Qed.

Lemma moves_single (e : event) :
  moves [e] = match e with EMove src dst => [(src, dst)] | _ => [] end.
Proof. now destruct e. Qed.

Lemma moves_app (t1 t2 : list event) : moves (t1 ++ t2) = moves t1 ++ moves t2.
Proof. apply omap_app. Qed.

Lemma runs_cut_events (items : clips) :
  runs (flat_map cut_events' items) = map cut_command_of' items.
Proof.
  induction items as [|item r IH]; [reflexivity|].
  cbn [flat_map map]. rewrite runs_app, IH. reflexivity.
Qed.

Lemma moves_cut_events (items : clips) :
  moves (flat_map cut_events' items) = [].
Proof.
  induction items as [|item r IH]; [reflexivity|].
  cbn [flat_map]. rewrite moves_app, IH. reflexivity.
Qed.

Lemma runs_cleanup (evs : list event) : Forall is_cleanup evs -> runs evs = [].
Proof.
  induction 1 as [|e r He _ IH]; [reflexivity|].
  destruct e; simpl in He; try contradiction; exact IH.
Qed.

Lemma moves_cleanup (evs : list event) : Forall is_cleanup evs -> moves evs = [].
Proof.
  induction 1 as [|e r He _ IH]; [reflexivity|].
  destruct e; simpl in He; try contradiction; exact IH.
Qed.

(** The two branches of lines 96-103. *)
Lemma finish_single (path : string) (w : World) :
  finish' [path] w
  = match files w !! path with
    | Some content =>
        (Ok tt,
         mkWorld (<[final_output_file := content]> (delete path (files w)))
           (trace w
              ++ [ EWrite "Only one file detected. Skipping combining step...";
                   EMove path final_output_file;
                   EWrite ("Final output saved to " +:+ final_output_file) ]))
    | None =>
        (Raise (FileNotFoundError path),
         mkWorld (files w)
           (trace w
              ++ [ EWrite "Only one file detected. Skipping combining step...";
                   EMove path final_output_file ]))
    end.
Proof.
  unfold finish. cbn [length Nat.eqb]. rewrite !bind_unfold.
  unfold tqdm_write, emit. cbn [lookup list_lookup]. unfold shutil_move, log.
  cbn [files trace]. destruct (files w !! path); cbn [files trace];
    now rewrite <- ?app_assoc.
Qed.

Lemma finish_combine (cut_files : list string) (w : World) :
  length cut_files <> 1%nat ->
  finish' cut_files w
  = let command := combine_command cut_files final_output_file in
    let wb := before_combine' cut_files w in
    if (spawn command wb).1 =? 0
    then (Ok tt, log (EWrite ("Final output saved to " +:+ final_output_file))
                   (after_run' command wb))
    else (Raise (CalledProcessError (spawn command wb).1 command),
          after_run' command wb).
Proof.
  intros Hlen. unfold finish.
  rewrite (proj2 (Nat.eqb_neq _ _) Hlen). rewrite !bind_unfold.
  unfold tqdm_write at 1. unfold emit at 1.
  rewrite combine_videos_eq, subprocess_run_eq. cbn zeta.
  unfold before_combine. now destruct (_ =? 0).
Qed.

Lemma main_eq (clips_dict : clips) (w : World) :
  main' clips_dict w
  = match cut_loop' [] clips_dict w with
    | (Ok cut_files, w1) =>
        match finish' cut_files w1 with
        | (Ok _, w2) => cleanup cut_files w2
        | (Raise e, w2) => (Raise e, w2)
        end
    | (Raise e, w1) => (Raise e, w1)
    end.
Proof. reflexivity. Qed.

Lemma length_cut_paths (items : clips) : length (cut_paths' items) = length items.
Proof. apply length_map. Qed.

(** ** The Clip Cutter *)

(** C7. [cut_video] starts the external processor once, with the command
    line: seek-start [-ss start_time], then the input [-i input_file], then
    the absolute end position [-to end_time], the video codec
    [-c:v libx264], the audio codec [-c:a aac], [-avoid_negative_ts 1], and
    the output path last. A non-zero exit status is raised as an error. *)
Theorem cut_video_command (input_file output_file start_time end_time : string)
    (w : World) :
  let command :=
    [ "ffmpeg"; "-ss"; start_time; "-i"; input_file; "-to"; end_time;
      "-c:v"; "libx264"; "-c:a"; "aac"; "-avoid_negative_ts"; "1";
      output_file ] in
  let started :=
    log (ECall (CutVideo input_file output_file start_time end_time)) w in
  let status := (spawn command started).1 in
  cut_video spawn input_file output_file start_time end_time w
  = (if status =? 0 then Ok tt else Raise (CalledProcessError status command),
     mkWorld (spawn command started).2
       (trace w
          ++ [ ECall (CutVideo input_file output_file start_time end_time);
               ERun command status ]))
  /\ last command = Some output_file.
Proof.
  cbn zeta. split; [|reflexivity].
  rewrite cut_video_eq, subprocess_run_eq. unfold after_run, log, cut_command.
  cbn [trace files]. now rewrite <- app_assoc.
Qed.

(** ** The Orchestrator *)

(** C1. With two or more entries, and the external processor exiting with
    status zero on every cut command, [main] calls [cut_video] once per
    entry, in the order of the entries, and then calls [combine_videos]
    once, with the intermediate paths of all entries in that order; the
    processor is run for each cut and then once for the combination. *)
Theorem main_cuts_then_combines (clips_dict : clips) (w : World) :
  (2 <= length clips_dict)%nat ->
  cuts_succeed spawn ->
  let w' := (main' clips_dict w).2 in
  calls (trace w')
  = calls (trace w) ++ map cut_call' clips_dict
      ++ [CombineVideos (cut_paths' clips_dict) final_output_file]
  /\ runs (trace w')
     = runs (trace w) ++ map cut_command_of' clips_dict
         ++ [combine_command (cut_paths' clips_dict) final_output_file]
  /\ length (cut_paths' clips_dict) = length clips_dict.
Proof.
  intros Hlen Hok. cbn zeta. rewrite main_eq.
  destruct (cut_loop_succeeds clips_dict [] w Hok) as (w1 & Hrun & Htr).
  rewrite Hrun. cbn [app].
  rewrite finish_combine by (rewrite length_cut_paths; lia). cbn zeta.
  split; [|split; [|apply length_cut_paths]].
  - destruct (_ =? 0); [rewrite cleanup_eq|]; cbn [snd trace log after_run];
      unfold before_combine, log; cbn [trace]; rewrite Htr;
      rewrite !calls_app, calls_cut_events, !calls_single,
        ?(calls_cleanup _ (cleanup_events_only _ _));
      now rewrite ?app_nil_r, <- ?app_assoc.
  - destruct (_ =? 0); [rewrite cleanup_eq|]; cbn [snd trace log after_run];
      unfold before_combine, log; cbn [trace]; rewrite Htr;
      rewrite !runs_app, runs_cut_events, !runs_single,
        ?(runs_cleanup _ (cleanup_events_only _ _));
      now rewrite ?app_nil_r, <- ?app_assoc.
Qed.

Lemma cut_loop_single (item : string * (string * string)) (w : World) :
  cuts_succeed spawn ->
  let cut_done := after_run' (cut_command_of' item) (before_cut' item w) in
  cut_loop' [] [item] w = (Ok [cut_path' item.1], cut_done)
  /\ trace cut_done = trace w ++ cut_events' item.
Proof.
  intros Hok. cbn zeta.
  assert ((spawn (cut_command_of' item) (before_cut' item w)).1 = 0) as Hz
    by apply Hok.
  split.
  - rewrite cut_loop_step, subprocess_run_eq, Hz. reflexivity.
  - unfold after_run. cbn [trace]. rewrite trace_before_cut, Hz.
    unfold cut_events. now rewrite <- app_assoc.
Qed.

(** C2. With exactly one entry, and the external processor exiting with
    status zero on the cut command, [main] calls [cut_video] once and never
    calls [combine_videos]: the processor is run once, and the next thing
    done is the move of the single intermediate file to the final output
    path. When the processor left that file, the run ends normally and the
    final output path holds its content; otherwise the move raises. *)
Theorem main_single_clip (item : string * (string * string)) (w : World) :
  cuts_succeed spawn ->
  let cut := cut_path' item.1 in
  let cut_done := after_run' (cut_command_of' item) (before_cut' item w) in
  let w' := (main' [item] w).2 in
  calls (trace w') = calls (trace w) ++ [cut_call' item]
  /\ runs (trace w') = runs (trace w) ++ [cut_command_of' item]
  /\ moves (trace w') = moves (trace w) ++ [(cut, final_output_file)]
  /\ (exists evs,
        trace w'
        = trace w ++ cut_events' item
            ++ [ EWrite "Only one file detected. Skipping combining step...";
                 EMove cut final_output_file ] ++ evs)
  /\ match files cut_done !! cut with
     | Some content =>
         (main' [item] w).1 = Ok tt
         /\ files w'
            = delete cut (<[final_output_file := content]>
                            (delete cut (files cut_done)))
     | None =>
         (main' [item] w).1 = Raise (FileNotFoundError cut)
         /\ files w' = files cut_done
     end.
Proof.
  intros Hok. cbn zeta.
  destruct (cut_loop_single item w Hok) as [Hloop Htr].
  rewrite main_eq, Hloop, finish_single.
  destruct (files _ !! cut_path' item.1) as [content|] eqn:Hlook.
  - rewrite cleanup_eq. cbn [snd fst trace files]. rewrite Htr.
    pose proof (cleanup_events_only [cut_path' item.1]
      (<[final_output_file := content]>
         (delete (cut_path' item.1)
            (files (after_run' (cut_command_of' item) (before_cut' item w))))))
      as Hclean.
    repeat split.
    + rewrite !calls_app, (calls_cleanup _ Hclean). unfold cut_events.
      cbn [calls omap]. now rewrite ?app_nil_r.
    + rewrite !runs_app, (runs_cleanup _ Hclean). unfold cut_events.
      cbn [runs omap]. now rewrite ?app_nil_r.
    + rewrite !moves_app, (moves_cleanup _ Hclean). unfold cut_events.
      cbn [moves omap]. now rewrite ?app_nil_r.
    + eexists. rewrite <- !app_assoc. cbn [app]. reflexivity.
  - cbn [snd fst trace files]. rewrite Htr.
    repeat split.
    + rewrite !calls_app. unfold cut_events. cbn [calls omap].
      now rewrite ?app_nil_r.
    + rewrite !runs_app. unfold cut_events. cbn [runs omap].
      now rewrite ?app_nil_r.
    + rewrite !moves_app. unfold cut_events. cbn [moves omap].
      now rewrite ?app_nil_r.
    + exists []. now rewrite <- !app_assoc.
Qed.

(** C5 (what the code does). For the empty Clip Request Set the total
    duration is 00:00:00 and no cut is made, but [main] does call
    [combine_videos] once, with an empty list of inputs: the list of cut
    files has length zero, which is not one, so line 101 runs and the
    processor is started with a concat filter over zero inputs. *)
Theorem main_empty_calls_combiner (w : World) :
  calculate_total_duration [] = Ok "00:00:00"
  /\ calls (trace (main' [] w).2)
     = calls (trace w) ++ [CombineVideos [] final_output_file]
  /\ runs (trace (main' [] w).2)
     = runs (trace w)
         ++ [[ "ffmpeg"; "-filter_complex"; "concat=n=0:v=1:a=1"; "-c:v";
               "libx264"; "-c:a"; "aac"; final_output_file ]].
Proof.
  split; [reflexivity|].
  rewrite main_eq. cbn [cut_loop]. unfold mret, M_ret.
  rewrite finish_combine by (simpl; lia). cbn zeta.
  split.
  - destruct (_ =? 0); [rewrite cleanup_eq|]; cbn [snd trace log after_run];
      unfold before_combine, log; cbn [trace cleanup_events];
      rewrite !calls_app, !calls_single; now rewrite ?app_nil_r, <- ?app_assoc.
  - destruct (_ =? 0); [rewrite cleanup_eq|]; cbn [snd trace log after_run];
      unfold before_combine, log; cbn [trace cleanup_events];
      rewrite !runs_app, !runs_single; now rewrite ?app_nil_r, <- ?app_assoc.
Qed.

(** ** Failure of the external processor *)

Lemma undisturbed_no_failed_run (evs : list event) :
  Forall undisturbed evs -> Forall no_failed_run evs.
Proof.
  intros H. eapply Forall_impl; [exact H|]. intros []; simpl; auto.
Qed.

Lemma cleanup_no_failed_run (evs : list event) :
  Forall is_cleanup evs -> Forall no_failed_run evs.
Proof.
  intros H. eapply Forall_impl; [exact H|].
  intros []; simpl; auto; contradiction.
Qed.

Lemma no_failed_run_elem (evs : list event) (command : list string) (status : Z) :
  Forall no_failed_run evs -> ERun command status ∈ evs -> status = 0.
Proof.
  intros Hall Hin. rewrite Forall_forall in Hall. exact (Hall _ Hin).
Qed.

(** Every run of [main] is of one of three kinds: no processor run failed;
    the cut of some entry failed; or the combination failed. *)
Lemma main_outcomes (clips_dict : clips) (w : World) :
  (exists evs,
      trace (main' clips_dict w).2 = trace w ++ evs
      /\ Forall no_failed_run evs)
  \/ (exists pre item post done,
        clips_dict = pre ++ item :: post
        /\ cut_loop' [] pre w = (Ok (cut_paths' pre), done)
        /\ trace done = trace w ++ flat_map cut_events' pre
        /\ (spawn (cut_command_of' item) (before_cut' item done)).1 <> 0
        /\ main' clips_dict w
           = (Raise (CalledProcessError
                       (spawn (cut_command_of' item) (before_cut' item done)).1
                       (cut_command_of' item)),
              after_run' (cut_command_of' item) (before_cut' item done)))
  \/ (exists done,
        let command := combine_command (cut_paths' clips_dict) final_output_file in
        let started := before_combine' (cut_paths' clips_dict) done in
        cut_loop' [] clips_dict w = (Ok (cut_paths' clips_dict), done)
        /\ trace done = trace w ++ flat_map cut_events' clips_dict
        /\ (spawn command started).1 <> 0
        /\ main' clips_dict w
           = (Raise (CalledProcessError (spawn command started).1 command),
              after_run' command started)).
Proof.
  rewrite main_eq.
  destruct (cut_loop_cases clips_dict [] w)
    as [(w1 & Hrun & Htr) | (pre & it & post & wpre & -> & Hpre & Htr & Hrc & Hrun)].
  - cbn [app] in Hrun. rewrite Hrun.
    pose proof (undisturbed_no_failed_run _ (undisturbed_cut_events clips_dict))
      as Hcuts.
    destruct (decide (length (cut_paths' clips_dict) = 1%nat)) as [Hone | Hmany].
    + left. destruct (cut_paths' clips_dict) as [|path [|? ?]]; try discriminate.
      rewrite finish_single. destruct (files w1 !! path) as [content|].
      * rewrite cleanup_eq. cbn [snd trace]. rewrite Htr.
        eexists. rewrite <- !app_assoc. split; [reflexivity|].
        apply Forall_app. split; [exact Hcuts|].
        apply Forall_app. split; [repeat constructor|].
        apply cleanup_no_failed_run, cleanup_events_only.
      * cbn [snd trace]. rewrite Htr.
        eexists. rewrite <- !app_assoc. split; [reflexivity|].
        apply Forall_app. split; [exact Hcuts | repeat constructor].
    + rewrite (finish_combine _ _ Hmany). cbn zeta.
      destruct (Z.eqb_spec
                  (spawn (combine_command (cut_paths' clips_dict) final_output_file)
                     (before_combine' (cut_paths' clips_dict) w1)).1 0)
        as [Hz | Hnz].
      * left. rewrite cleanup_eq. unfold after_run.
        remember (spawn _ (before_combine' (cut_paths' clips_dict) w1)) as out.
        cbn [snd trace log].
        unfold before_combine, log. cbn [trace]. rewrite Htr.
        eexists. rewrite <- !app_assoc. split; [reflexivity|].
        apply Forall_app. split; [exact Hcuts|].
        cbn [app]. repeat (constructor; [first [exact I | exact Hz]|]).
        apply cleanup_no_failed_run, cleanup_events_only.
      * right. right. exists w1. cbn zeta. auto.
  - right. left. cbn [app] in Hpre, Hrun. rewrite Hrun.
    exists pre, it, post, wpre. auto.
Qed.

(** C4. When a cut or the combination exits with a non-zero status, [main]
    stops there with [CalledProcessError]: the failed run is the last event
    of the trace, so nothing is retried and no later cut or combination is
    started; before it every processor run had status zero and nothing was
    moved, checked for existence or removed. The files at the end are the
    ones the failed run left, started from the files of the cuts already
    made, so the script itself has deleted none of those intermediate
    files: they are still there unless the processor removed them. *)
Theorem failure_aborts (clips_dict : clips) (w : World) (evs : list event)
    (command : list string) (status : Z) :
  trace (main' clips_dict w).2 = trace w ++ evs ->
  ERun command status ∈ evs ->
  status <> 0 ->
  (main' clips_dict w).1 = Raise (CalledProcessError status command)
  /\ exists before started,
       evs = before ++ [ERun command status]
       /\ Forall undisturbed before
       /\ trace started = trace w ++ before
       /\ spawn command started = (status, files (main' clips_dict w).2)
       /\ ((exists pre item post done,
              clips_dict = pre ++ item :: post
              /\ command = cut_command_of' item
              /\ calls evs = map cut_call' pre ++ [cut_call' item]
              /\ cut_loop' [] pre w = (Ok (cut_paths' pre), done)
              /\ files started = files done
              /\ (keeps_files spawn ->
                  forall path, is_Some (files done !! path) ->
                               is_Some (files (main' clips_dict w).2 !! path)))
           \/ (exists done,
                 command = combine_command (cut_paths' clips_dict) final_output_file
                 /\ calls evs
                    = map cut_call' clips_dict
                        ++ [CombineVideos (cut_paths' clips_dict) final_output_file]
                 /\ cut_loop' [] clips_dict w = (Ok (cut_paths' clips_dict), done)
                 /\ files started = files done
                 /\ (keeps_files spawn ->
                     forall path, is_Some (files done !! path) ->
                                  is_Some (files (main' clips_dict w).2 !! path)))).
Proof.
  intros Htrace Hin Hnz.
  destruct (main_outcomes clips_dict w)
    as [(evs0 & Htr0 & Hall)
       | [(pre & item & post & done & -> & Hpre & Htrd & Hrc & Hmain)
         | (done & Hloop & Htrd & Hrc & Hmain)]].
  - rewrite Htr0 in Htrace. apply app_inv_head in Htrace. subst evs0.
    exfalso. apply Hnz. eapply no_failed_run_elem; eauto.
  - rewrite Hmain in *. clear Hmain. cbn [fst snd] in *.
    set (started := before_cut' item done) in *.
    assert (trace started
            = trace w ++ flat_map cut_events' pre
                ++ [EWrite (cut_message item); ECall (cut_call' item)]) as Hst.
    { unfold started. rewrite trace_before_cut, Htrd. now rewrite <- app_assoc. }
    unfold after_run in *. cbn [trace files] in *.
    rewrite Hst, <- !app_assoc in Htrace. apply app_inv_head in Htrace.
    subst evs.
    assert (Forall undisturbed
              (flat_map cut_events' pre
                 ++ [EWrite (cut_message item); ECall (cut_call' item)])) as Hund.
    { apply Forall_app. split; [apply undisturbed_cut_events|].
      repeat constructor. }
    assert (command = cut_command_of' item
            /\ status = (spawn (cut_command_of' item) started).1) as [-> ->].
    { rewrite app_assoc in Hin. apply elem_of_app in Hin as [Hin | Hin].
      - exfalso. apply Hnz.
        exact (no_failed_run_elem _ _ _ (undisturbed_no_failed_run _ Hund) Hin).
      - apply list_elem_of_singleton in Hin. now inversion Hin. }
    split; [reflexivity|].
    exists (flat_map cut_events' pre
              ++ [EWrite (cut_message item); ECall (cut_call' item)]), started.
    split; [now rewrite <- !app_assoc|]. split; [exact Hund|].
    split; [exact Hst|]. split; [now destruct (spawn _ started)|].
    left. exists pre, item, post, done.
    split; [reflexivity|]. split; [reflexivity|]. split.
    { rewrite !calls_app, calls_cut_events. reflexivity. }
    split; [exact Hpre|]. split; [reflexivity|].
    intros Hkeep path Hpath. apply Hkeep. exact Hpath.
  - cbn zeta in *. rewrite Hmain in *. clear Hmain. cbn [fst snd] in *.
    set (cut_files := cut_paths' clips_dict) in *.
    set (started := before_combine' cut_files done) in *.
    assert (trace started
            = trace w ++ flat_map cut_events' clips_dict
                ++ [ EWrite "Combining videos...";
                     ECall (CombineVideos cut_files final_output_file) ]) as Hst.
    { unfold started, before_combine, log. cbn [trace]. rewrite Htrd.
      now rewrite <- !app_assoc. }
    unfold after_run in *. cbn [trace files] in *.
    rewrite Hst, <- !app_assoc in Htrace. apply app_inv_head in Htrace.
    subst evs.
    assert (Forall undisturbed
              (flat_map cut_events' clips_dict
                 ++ [ EWrite "Combining videos...";
                      ECall (CombineVideos cut_files final_output_file) ]))
      as Hund.
    { apply Forall_app. split; [apply undisturbed_cut_events|].
      repeat constructor. }
    assert (command = combine_command cut_files final_output_file
            /\ status
               = (spawn (combine_command cut_files final_output_file) started).1)
      as [-> ->].
    { rewrite app_assoc in Hin. apply elem_of_app in Hin as [Hin | Hin].
      - exfalso. apply Hnz.
        exact (no_failed_run_elem _ _ _ (undisturbed_no_failed_run _ Hund) Hin).
      - apply list_elem_of_singleton in Hin. now inversion Hin. }
    split; [reflexivity|].
    exists (flat_map cut_events' clips_dict
              ++ [ EWrite "Combining videos...";
                   ECall (CombineVideos cut_files final_output_file) ]), started.
    split; [now rewrite <- !app_assoc|]. split; [exact Hund|].
    split; [exact Hst|]. split; [now destruct (spawn _ started)|].
    right. exists done.
    split; [reflexivity|]. split.
    { rewrite !calls_app, calls_cut_events. reflexivity. }
    split; [exact Hloop|]. split; [reflexivity|].
    intros Hkeep path Hpath. apply Hkeep. exact Hpath.
Qed.

(** ** Cleanup after a successful run *)

Lemma cleanup_events_missing (l : list string) (fs : gmap string string)
    (path : string) :
  fs !! path = None -> ERemove path ∉ cleanup_events fs l.
Proof.
  revert fs. induction l as [|q r IH]; intros fs Hnone; [apply not_elem_of_nil|].
  cbn [cleanup_events]. case_bool_decide as Hq.
  - assert (path <> q) as Hne by (intros ->; destruct Hq; congruence).
    intros Hin. apply elem_of_cons in Hin as [Hin | Hin]; [discriminate|].
    apply elem_of_cons in Hin as [Hin | Hin]; [congruence|].
    revert Hin. apply IH. rewrite lookup_delete_ne by congruence. exact Hnone.
  - intros Hin. apply elem_of_cons in Hin as [Hin | Hin]; [discriminate|].
    revert Hin. now apply IH.
Qed.

Lemma last_combine_command (input_files : list string) (out : string) :
  last (combine_command input_files out) = Some out.
Proof.
  unfold combine_command. cbn zeta.
  rewrite !last_app. reflexivity.
Qed.

(** C6 (as the code has it). After a run of [main] that ends normally, the
    cleanup loop has checked every recorded intermediate path, in order,
    and removed those that existed; a path that is missing is only checked,
    never removed, and raises nothing. So none of the intermediate paths
    exists at the end, and every other path is as the move or the
    combination left it. In particular, when the final output path is not
    one of the intermediate paths, the final output is left untouched by
    the cleanup, and it exists when the single clip was moved there or
    when the external processor writes its output path. *)
Theorem successful_run_cleans_up (clips_dict : clips) (w w' : World) :
  main' clips_dict w = (Ok tt, w') ->
  let cut_files := cut_paths' clips_dict in
  exists cut_done finished,
    cut_loop' [] clips_dict w = (Ok cut_files, cut_done)
    /\ finish' cut_files cut_done = (Ok tt, finished)
    /\ cleanup cut_files finished = (Ok tt, w')
    /\ trace w' = trace finished ++ cleanup_events (files finished) cut_files
    /\ Forall is_cleanup (cleanup_events (files finished) cut_files)
    /\ (forall path, path ∈ cut_files ->
          (exists found,
              EExists path found ∈ cleanup_events (files finished) cut_files)
          /\ files w' !! path = None)
    /\ (forall path, files finished !! path = None ->
          ERemove path ∉ cleanup_events (files finished) cut_files)
    /\ (forall path, path ∉ cut_files ->
          files w' !! path = files finished !! path)
    /\ (final_output_file ∉ cut_files ->
        length clips_dict = 1%nat \/ writes_output spawn ->
        is_Some (files w' !! final_output_file)).
Proof.
  intros Hmain. cbn zeta. rewrite main_eq in Hmain.
  destruct (cut_loop_cases clips_dict [] w)
    as [(w1 & Hrun & Htr) | (pre & it & post & wpre & _ & _ & _ & _ & Hrun)];
    rewrite Hrun in Hmain; [|discriminate].
  cbn [app] in *.
  destruct (finish' (cut_paths' clips_dict) w1) as [[[]|e] w2] eqn:Hfin;
    [|discriminate].
  pose proof Hmain as Hclean. rewrite cleanup_eq in Hmain.
  injection Hmain as <-. cbn [files trace].
  exists w1, w2. repeat split; auto.
  - apply cleanup_events_only.
  - now apply cleanup_events_checked.
  - now apply remove_all_in.
  - now apply cleanup_events_missing.
  - intros path Hnot. now apply remove_all_notin.
  - intros Hnot Hor. rewrite remove_all_notin by exact Hnot.
    destruct (decide (length (cut_paths' clips_dict) = 1%nat)) as [Hone | Hmany].
    + destruct (cut_paths' clips_dict) as [|path [|? ?]]; try discriminate.
      rewrite finish_single in Hfin. destruct (files w1 !! path) as [content|];
        [|discriminate].
      injection Hfin as <-. cbn [files]. rewrite lookup_insert_eq. eauto.
    + destruct Hor as [Hlen | Hwrites];
        [rewrite length_cut_paths in Hmany; contradiction|].
      rewrite (finish_combine _ _ Hmany) in Hfin. cbn zeta in Hfin.
      destruct (Z.eqb_spec
                  (spawn (combine_command (cut_paths' clips_dict) final_output_file)
                     (before_combine' (cut_paths' clips_dict) w1)).1 0)
        as [Hz | Hnz]; [|discriminate].
      injection Hfin as <-. cbn [files log after_run].
      apply Hwrites; [exact Hz | apply last_combine_command].
Qed.

(** ** The confirmation prompt *)

(** C8. Once the total duration is computed, the script prints it and asks
    for confirmation before anything else. An answer that is [y] once
    stripped and lowercased hands over to [main], which therefore starts
    only after the two lines were shown. Any other answer ends the script
    with [SystemExit] before [main] is entered: a cancellation line is
    printed, the files are unchanged, and no call, processor run or move
    is recorded. *)
Theorem confirmation_prompt (clips_dict : clips) (answer : string) (w : World)
    (total_duration : string) :
  calculate_total_duration clips_dict = Ok total_duration ->
  let shown :=
    log (EInput "Do you want to continue? (y/n): ")
      (log (EPrint ("Total duration of the final video will be: "
                      +:+ total_duration)) w) in
  let outcome := run_script' clips_dict answer w in
  (PyStr.lower (PyStr.strip answer) = "y" -> outcome = main' clips_dict shown)
  /\ (PyStr.lower (PyStr.strip answer) <> "y" ->
      outcome
      = (Raise SystemExit, log (EPrint "Operation cancelled by the user.") shown)
      /\ files outcome.2 = files w
      /\ trace outcome.2
         = trace w
             ++ [ EPrint ("Total duration of the final video will be: "
                            +:+ total_duration);
                  EInput "Do you want to continue? (y/n): ";
                  EPrint "Operation cancelled by the user." ]
      /\ calls (trace outcome.2) = calls (trace w)
      /\ runs (trace outcome.2) = runs (trace w)
      /\ moves (trace outcome.2) = moves (trace w)).
Proof.
  intros Hdur. cbn zeta.
  assert (run_script' clips_dict answer w
          = (if bool_decide (PyStr.lower (PyStr.strip answer) <> "y")
             then (print "Operation cancelled by the user.";; raise SystemExit)
             else main' clips_dict)
              (log (EInput "Do you want to continue? (y/n): ")
                 (log (EPrint ("Total duration of the final video will be: "
                                 +:+ total_duration)) w))) as ->.
  { unfold run_script. rewrite bind_unfold. unfold lift.
    rewrite Hdur. reflexivity. }
  split.
  - intros Hy. rewrite bool_decide_eq_false_2 by (intros Hn; apply Hn, Hy).
    reflexivity.
  - intros Hn. rewrite bool_decide_eq_true_2 by exact Hn.
    assert (forall w0,
              (print "Operation cancelled by the user.";; raise SystemExit) w0
              = (@Raise unit SystemExit,
                 log (EPrint "Operation cancelled by the user.") w0)) as ->
      by reflexivity.
    split; [reflexivity|]. split; [reflexivity|].
    unfold log. cbn [snd trace files].
    split; [now rewrite <- !app_assoc|].
    rewrite !calls_app, !runs_app, !moves_app, !calls_single, !runs_single,
      !moves_single.
    now rewrite !app_nil_r.
Qed.

End ScriptFacts.

(** ** The statements on concrete runs *)

Lemma simple_ffmpeg_cuts_succeed : cuts_succeed (simple_ffmpeg always_ok).
Proof. intros i o s e w. reflexivity. Qed.

Lemma simple_ffmpeg_writes_output (status : list string -> Z) :
  writes_output (simple_ffmpeg status).
Proof.
  intros command w out. unfold simple_ffmpeg. intros Hstatus Hlast.
  rewrite Hlast in *.
  destruct (Z.eqb_spec (status command) 0) as [Hz | Hnz].
  - simpl. rewrite lookup_insert_eq. eauto.
  - exfalso. exact (Hnz Hstatus).
Qed.

Lemma main_cuts_then_combines_witness :
  (2 <= length demo_clips)%nat
  /\ cuts_succeed (simple_ffmpeg always_ok)
  /\ calls (trace (main (simple_ffmpeg always_ok) posix_join "v" "v/out.mp4"
                     demo_clips demo_world).2)
     = [ CutVideo "v/a.mp4" "v/cut_a.mp4" "00:00:10" "00:00:20";
         CutVideo "v/b.mp4" "v/cut_b.mp4" "00:00:00" "00:00:05";
         CombineVideos ["v/cut_a.mp4"; "v/cut_b.mp4"] "v/out.mp4" ].
Proof.
  split; [simpl; lia|]. split; [exact simple_ffmpeg_cuts_succeed|].
  exact (proj1 (main_cuts_then_combines (simple_ffmpeg always_ok) posix_join
                  "v" "v/out.mp4" demo_clips demo_world
                  ltac:(simpl; lia) simple_ffmpeg_cuts_succeed)).
Defined.

Lemma main_single_clip_witness :
  cuts_succeed (simple_ffmpeg always_ok)
  /\ calls (trace (main (simple_ffmpeg always_ok) posix_join "v" "v/out.mp4"
                     [("only.mp4", ("00:01:00", "00:02:30"))] demo_world).2)
     = [CutVideo "v/only.mp4" "v/cut_only.mp4" "00:01:00" "00:02:30"]
  /\ moves (trace (main (simple_ffmpeg always_ok) posix_join "v" "v/out.mp4"
                     [("only.mp4", ("00:01:00", "00:02:30"))] demo_world).2)
     = [("v/cut_only.mp4", "v/out.mp4")].
Proof.
  split; [exact simple_ffmpeg_cuts_succeed|].
  pose proof (main_single_clip (simple_ffmpeg always_ok) posix_join
                "v" "v/out.mp4" ("only.mp4", ("00:01:00", "00:02:30"))
                demo_world simple_ffmpeg_cuts_succeed) as H.
  split; [exact (proj1 H) | exact (proj1 (proj2 (proj2 H)))].
Defined.

(** In [failed_run] the second cut fails: the run stops there, and the
    first intermediate file is still on disk. *)
Lemma failure_aborts_witness :
  trace failed_run.2 = trace demo_world ++ trace failed_run.2
  /\ ERun (cut_command "v/b.mp4" "v/cut_b.mp4" "00:00:00" "00:00:05") 1
       ∈ trace failed_run.2
  /\ 1 <> 0
  /\ failed_run.1
     = Raise (CalledProcessError 1
                (cut_command "v/b.mp4" "v/cut_b.mp4" "00:00:00" "00:00:05")).
Proof.
  assert (trace failed_run.2 = trace demo_world ++ trace failed_run.2) as Htr
    by reflexivity.
  assert (ERun (cut_command "v/b.mp4" "v/cut_b.mp4" "00:00:00" "00:00:05") 1
            ∈ trace failed_run.2) as Hin.
  { apply list_elem_of_In. vm_compute. tauto. }
  assert (1 <> 0) as Hne by lia.
  split; [exact Htr|]. split; [exact Hin|]. split; [exact Hne|].
  exact (proj1 (failure_aborts (simple_ffmpeg (fail_on "v/cut_b.mp4"))
                  posix_join "v" "v/out.mp4" three_clips demo_world
                  _ _ _ Htr Hin Hne)).
Defined.

Example failed_run_keeps_first_cut :
  files failed_run.2 !! "v/cut_a.mp4" = Some "video"
  /\ files failed_run.2 !! "v/cut_b.mp4" = None
  /\ files failed_run.2 !! "v/cut_c.mp4" = None
  /\ files failed_run.2 !! "v/out.mp4" = None
  /\ length (runs (trace failed_run.2)) = 2%nat.
Proof. vm_compute. repeat split. Qed.

Lemma successful_run_cleans_up_witness :
  main (simple_ffmpeg always_ok) posix_join "v" "v/out.mp4"
    demo_clips demo_world = (Ok tt, good_run.2)
  /\ files good_run.2 !! "v/cut_a.mp4" = None
  /\ files good_run.2 !! "v/cut_b.mp4" = None
  /\ is_Some (files good_run.2 !! "v/out.mp4").
Proof.
  assert (main (simple_ffmpeg always_ok) posix_join "v" "v/out.mp4"
            demo_clips demo_world = (Ok tt, good_run.2)) as Hmain
    by (vm_compute; reflexivity).
  split; [exact Hmain|].
  destruct (successful_run_cleans_up _ _ _ _ _ _ _ Hmain)
    as (cut_done & finished & _ & _ & _ & _ & _ & Hgone & _ & _ & Hfinal).
  split; [apply Hgone; apply list_elem_of_In; simpl; tauto|].
  split; [apply Hgone; apply list_elem_of_In; simpl; tauto|].
  apply Hfinal.
  - intros Hin. apply list_elem_of_In in Hin. simpl in Hin.
    destruct Hin as [H | [H | []]]; discriminate H.
  - right. apply simple_ffmpeg_writes_output.
Defined.

Example good_run_scenario :
  calculate_total_duration demo_clips = Ok "00:00:15"
  /\ good_run.1 = Ok tt
  /\ calls (trace good_run.2)
     = [ CutVideo "v/a.mp4" "v/cut_a.mp4" "00:00:10" "00:00:20";
         CutVideo "v/b.mp4" "v/cut_b.mp4" "00:00:00" "00:00:05";
         CombineVideos ["v/cut_a.mp4"; "v/cut_b.mp4"] "v/out.mp4" ]
  /\ files good_run.2 !! "v/out.mp4" = Some "video".
Proof. vm_compute. repeat split. Qed.

(** C6 as stated fails: when the final output path is the path of an
    intermediate file, the run ends normally and the cleanup loop removes
    the final output. Here the single clip a.mp4 is cut to v/cut_a.mp4,
    which is also the final output path. *)
Lemma final_output_removed_by_cleanup :
  ~ (forall spawn path_join video_folder final_output_file clips_dict w w',
        writes_output spawn ->
        main spawn path_join video_folder final_output_file clips_dict w
        = (Ok tt, w') ->
        is_Some (files w' !! final_output_file)).
Proof.
  intros H.
  specialize (H (simple_ffmpeg always_ok) posix_join "v" "v/cut_a.mp4"
                [("a.mp4", ("00:00:10", "00:00:20"))] demo_world
                (main (simple_ffmpeg always_ok) posix_join "v" "v/cut_a.mp4"
                   [("a.mp4", ("00:00:10", "00:00:20"))] demo_world).2
                (simple_ffmpeg_writes_output always_ok)).
  assert (is_Some (@None string)) as [content Hcontent];
    [|discriminate Hcontent].
  apply H. vm_compute. reflexivity.
Qed.

Lemma confirmation_prompt_witness :
  calculate_total_duration demo_clips = Ok "00:00:15"
  /\ run_script (simple_ffmpeg always_ok) posix_join "v" "v/out.mp4"
       demo_clips " No " demo_world
     = (Raise SystemExit,
        mkWorld (files demo_world)
          [ EPrint "Total duration of the final video will be: 00:00:15";
            EInput "Do you want to continue? (y/n): ";
            EPrint "Operation cancelled by the user." ]).
Proof.
  split; [reflexivity|].
  refine (proj1 (proj2 (confirmation_prompt (simple_ffmpeg always_ok) posix_join
                          "v" "v/out.mp4" demo_clips " No " demo_world
                          "00:00:15" eq_refl) _)).
  vm_compute. discriminate.
Defined.

(** The script as shipped has an empty Clip Request Set: confirmed with
    [y], it starts the processor once, to combine nothing. *)
Example shipped_script_confirmed :
  runs (trace (shipped_script (simple_ffmpeg always_ok) posix_join "Y"
                 (mkWorld ∅ [])).2)
  = [[ "ffmpeg"; "-filter_complex"; "concat=n=0:v=1:a=1"; "-c:v"; "libx264";
       "-c:a"; "aac"; "C:\Videos/final_output.mp4" ]].
Proof. reflexivity. Qed.

(** ** More on the Duration Calculator *)

Lemma int_outcome (x : string) :
  (exists v, PyStr.int x = Ok v) \/ PyStr.int x = Raise ValueError.
Proof.
  unfold PyStr.int.
  destruct (match PyStr.strip_by PyStr.int_space x with
            | String "-" r => Z.opp <$> PyStr.parse_digits 0 false r
            | String "+" r => PyStr.parse_digits 0 false r
            | _ => PyStr.parse_digits 0 false (PyStr.strip_by PyStr.int_space x)
            end) as [v|]; eauto.
Qed.

Lemma int_ok_spec (x : string) :
  (int_ok x = true /\ exists v, PyStr.int x = Ok v)
  \/ (int_ok x = false /\ PyStr.int x = Raise ValueError).
Proof.
  unfold int_ok. destruct (int_outcome x) as [[v Hv] | Hr].
  - left. rewrite Hv. eauto.
  - right. now rewrite Hr.
Qed.

Lemma sum_fields_outcome (xs : list string) (acc : Z) (i : nat) :
  (forallb int_ok xs = true /\ exists v, sum_fields acc i xs = Ok v)
  \/ (forallb int_ok xs = false /\ sum_fields acc i xs = Raise ValueError).
Proof.
  revert acc i. induction xs as [|x r IH]; intros acc i.
  - left. simpl. eauto.
  - cbn [sum_fields forallb].
    destruct (int_ok_spec x) as [[-> [v ->]] | [-> ->]].
    + rewrite result_bind_ok. apply IH.
    + right. split; reflexivity.
Qed.

Lemma to_seconds_outcome (t : string) :
  (parses t = true /\ exists v, to_seconds t = Ok v)
  \/ (parses t = false /\ to_seconds t = Raise ValueError).
Proof.
  unfold parses, to_seconds. rewrite <- (forallb_rev int_ok).
  apply sum_fields_outcome.
Qed.

Lemma accumulate_cons (item : string * (string * string)) (r : clips) (total : Z) :
  accumulate total (item :: r)
  = (delta ← entry_delta item; accumulate (total + delta) r).
Proof.
  destruct item as [name [st en]]. unfold entry_delta. cbn [fst snd accumulate].
  destruct (to_seconds st) as [s|]; [|reflexivity].
  destruct (to_seconds en) as [e|]; reflexivity.
Qed.

Lemma entry_delta_outcome (item : string * (string * string)) :
  (entry_parses item = true /\ exists delta, entry_delta item = Ok delta)
  \/ (entry_parses item = false /\ entry_delta item = Raise ValueError).
Proof.
  unfold entry_parses, entry_delta.
  destruct (to_seconds_outcome item.2.1) as [[-> [s ->]] | [-> ->]].
  - destruct (to_seconds_outcome item.2.2) as [[-> [e ->]] | [-> ->]].
    + left. split; [reflexivity|]. eexists. reflexivity.
    + right. split; reflexivity.
  - right. split; reflexivity.
Qed.

Lemma accumulate_outcome (items : clips) (total : Z) :
  (forallb entry_parses items = true /\ exists v, accumulate total items = Ok v)
  \/ (forallb entry_parses items = false
      /\ accumulate total items = Raise ValueError).
Proof.
  revert total. induction items as [|item r IH]; intros total.
  - left. simpl. eauto.
  - rewrite accumulate_cons. cbn [forallb].
    destruct (entry_delta_outcome item) as [[-> [delta ->]] | [-> ->]].
    + rewrite result_bind_ok. apply IH.
    + right. split; reflexivity.
Qed.


(** X2. The total does not depend on the order of the entries: two Clip
    Request Sets with the same entries in a different order get the same
    result, be it a duration or [ValueError]. *)
Theorem calculate_total_duration_order (l1 l2 : clips) :
  Permutation l1 l2 ->
  calculate_total_duration l1 = calculate_total_duration l2.
Proof.
  intros Hperm. unfold calculate_total_duration.
  enough (forall total, accumulate total l1 = accumulate total l2) as ->
    by reflexivity.
  induction Hperm as [|x l l' _ IH|x y l|l l' l'' _ IH1 _ IH2]; intros total.
  - reflexivity.
  - rewrite !accumulate_cons.
    destruct (entry_delta x) as [delta|]; [apply IH | reflexivity].
  - destruct (entry_delta_outcome x) as [[_ [dx Hx]] | [_ Hx]];
      destruct (entry_delta_outcome y) as [[_ [dy Hy]] | [_ Hy]];
      repeat (rewrite accumulate_cons, ?Hx, ?Hy, ?result_bind_ok);
      try reflexivity.
    f_equal. lia.
  - now rewrite IH1, IH2.
Qed.

Lemma calculate_total_duration_order_witness :
  Permutation demo_clips (rev demo_clips)
  /\ calculate_total_duration demo_clips
     = calculate_total_duration (rev demo_clips).
Proof.
  assert (Permutation demo_clips (rev demo_clips)) as Hperm
    by apply Permutation_rev.
  split; [exact Hperm|].
  exact (calculate_total_duration_order _ _ Hperm).
Defined.

Lemma split_colon_no_colon (s1 s2 : string) :
  all_chars (fun c => negb (Ascii.eqb c ":")) s1 = true ->
  PyStr.split_colon (s1 +:+ String ":" s2) = s1 :: PyStr.split_colon s2.
Proof.
  induction s1 as [|c r IH]; [reflexivity|].
  intros Hall. simpl in Hall. apply andb_true_iff in Hall as [Hc Hr].
  apply negb_true_iff in Hc.
  rewrite append_cons. cbn [PyStr.split_colon]. rewrite Hc.
  now rewrite (IH Hr).
Qed.

Lemma digits_no_colon (s : string) :
  all_chars PyStr.isdigit s = true ->
  all_chars (fun c => negb (Ascii.eqb c ":")) s = true.
Proof.
  apply all_chars_weaken. intros c Hc.
  apply isdigit_not_special in Hc as (_ & -> & _). reflexivity.
Qed.

(** [int] reads a minus sign followed by digits as the opposite number. *)
Lemma int_minus_numeric (s : string) :
  numeric s = true -> PyStr.int ("-" +:+ s) = Ok (- dec_value 0 s).
Proof.
  intros [Hne Hall]%numeric_alt.
  assert (all_chars (fun c => negb (PyStr.int_space c)) ("-" +:+ s) = true)
    as Hns.
  { change ("-" +:+ s) with (String "-" s). cbn [all_chars].
    apply andb_true_iff. split; [reflexivity|].
    revert Hall. apply all_chars_weaken. intros c Hc.
    apply isdigit_not_special in Hc as [-> _]. reflexivity. }
  unfold PyStr.int, PyStr.strip_by.
  rewrite (lstrip_nonspace _ _ Hns), (rstrip_nonspace _ _ Hns).
  change ("-" +:+ s) with (String "-" s). cbv iota beta.
  now rewrite (parse_digits_numeric s 0 false Hall Hne).
Qed.

(** X3. Reading back what [calculate_total_duration] prints gives the
    number of seconds it printed, for every integer total, negative ones
    included: the minus sign of the hours field is read by [int] and the
    floor division makes the three fields add up. So two different totals
    are never printed alike. *)
Theorem format_duration_read_back :
  (forall total, to_seconds (format_duration total) = Ok total)
  /\ (forall a b, format_duration a = format_duration b -> a = b).
Proof.
  assert (forall total, to_seconds (format_duration total) = Ok total) as Hback.
  { intros total. destruct (Z_lt_ge_dec total 0) as [Hneg | Hpos];
      [|apply to_seconds_format; lia].
    rewrite format_duration_fields.
    destruct (minutes_seconds_range total) as (Hm & Hs & Htot).
    assert (total / 3600 < 0) as Hh by (apply Z.div_lt_upper_bound; lia).
    destruct (str_nat_spec (- (total / 3600)) ltac:(lia)) as [Nh Vh].
    destruct (two_digits_numeric (total mod 3600 / 60) ltac:(lia)) as [Nm Vm].
    destruct (two_digits_numeric (total mod 60) ltac:(lia)) as [Ns Vs].
    rewrite (format_negative _ Hh).
    set (hh := "-" +:+ PyStr.str_nat (- (total / 3600))).
    set (mm := two_digits (total mod 3600 / 60)) in *.
    set (ss := two_digits (total mod 60)) in *.
    assert (PyStr.split_colon (hh +:+ ":" +:+ mm +:+ ":" +:+ ss) = [hh; mm; ss])
      as Hsplit.
    { change (":" +:+ mm +:+ ":" +:+ ss) with (String ":" (mm +:+ String ":" ss)).
      rewrite split_colon_no_colon.
      - rewrite split_colon_no_colon
          by (apply digits_no_colon; now apply numeric_alt in Nm as [_ ?]).
        rewrite split_colon_digits by now apply numeric_alt in Ns as [_ ?].
        reflexivity.
      - unfold hh. change ("-" +:+ ?s) with (String "-" s). cbn [all_chars].
        apply andb_true_iff. split; [reflexivity|].
        apply digits_no_colon. now apply numeric_alt in Nh as [_ ?]. }
    unfold to_seconds. rewrite Hsplit. cbn [rev app sum_fields].
    rewrite (int_numeric _ Ns), result_bind_ok.
    rewrite (int_numeric _ Nm), result_bind_ok.
    unfold hh. rewrite (int_minus_numeric _ Nh), result_bind_ok.
    rewrite Vh, Vm, Vs. f_equal.
    change (60 ^ Z.of_nat 0) with 1. change (60 ^ Z.of_nat 1) with 60.
    change (60 ^ Z.of_nat 2) with 3600. lia. }
  split; [exact Hback|].
  intros a b Heq. pose proof (Hback a) as Ha. rewrite Heq, Hback in Ha.
  congruence.
Qed.

(** X4. Fields are only weighted, never range-checked: with numeric
    fields, [s] alone counts seconds, [m:s] is [60 m + s], [h:m:s] is
    [3600 h + 60 m + s] whatever the size of [m] and [s], and a fourth
    field on the left is weighted by [60^3 = 216000]. *)
Theorem to_seconds_weights (d h m s : string) :
  numeric d = true -> numeric h = true ->
  numeric m = true -> numeric s = true ->
  to_seconds s = Ok (dec_value 0 s)
  /\ to_seconds (m +:+ ":" +:+ s) = Ok (60 * dec_value 0 m + dec_value 0 s)
  /\ to_seconds (h +:+ ":" +:+ m +:+ ":" +:+ s)
     = Ok (3600 * dec_value 0 h + 60 * dec_value 0 m + dec_value 0 s)
  /\ to_seconds (d +:+ ":" +:+ h +:+ ":" +:+ m +:+ ":" +:+ s)
     = Ok (216000 * dec_value 0 d + 3600 * dec_value 0 h
           + 60 * dec_value 0 m + dec_value 0 s).
Proof.
  intros Nd Nh Nm Ns.
  pose proof (proj2 (proj1 (numeric_alt _) Nd)) as Dd.
  pose proof (proj2 (proj1 (numeric_alt _) Nh)) as Dh.
  pose proof (proj2 (proj1 (numeric_alt _) Nm)) as Dm.
  pose proof (proj2 (proj1 (numeric_alt _) Ns)) as Ds.
  assert (PyStr.split_colon s = [s]) as S1 by now apply split_colon_digits.
  assert (PyStr.split_colon (m +:+ ":" +:+ s) = [m; s]) as S2.
  { change (":" +:+ s) with (String ":" s).
    now rewrite (split_colon_app _ _ Dm), S1. }
  assert (PyStr.split_colon (h +:+ ":" +:+ m +:+ ":" +:+ s) = [h; m; s]) as S3.
  { change (":" +:+ m +:+ ":" +:+ s) with (String ":" (m +:+ ":" +:+ s)).
    now rewrite (split_colon_app _ _ Dh), S2. }
  assert (PyStr.split_colon (d +:+ ":" +:+ h +:+ ":" +:+ m +:+ ":" +:+ s)
          = [d; h; m; s]) as S4.
  { change (":" +:+ h +:+ ":" +:+ m +:+ ":" +:+ s)
      with (String ":" (h +:+ ":" +:+ m +:+ ":" +:+ s)).
    now rewrite (split_colon_app _ _ Dd), S3. }
  unfold to_seconds. rewrite S1, S2, S3, S4. cbn [rev app sum_fields].
  rewrite (int_numeric _ Nd), (int_numeric _ Nh), (int_numeric _ Nm),
    (int_numeric _ Ns), !result_bind_ok.
  change (60 ^ Z.of_nat 0) with 1. change (60 ^ Z.of_nat 1) with 60.
  change (60 ^ Z.of_nat 2) with 3600. change (60 ^ Z.of_nat 3) with 216000.
  repeat split; f_equal; lia.
Qed.

Lemma to_seconds_weights_witness :
  numeric "1" = true /\ numeric "00" = true /\ numeric "90" = true
  /\ to_seconds "00:90:00" = Ok 5400
  /\ to_seconds "1:00:90:00" = Ok 221400.
Proof.
  pose proof (to_seconds_weights "1" "00" "90" "00"
                eq_refl eq_refl eq_refl eq_refl) as (_ & _ & H3 & H4).
  split; [reflexivity|]. split; [reflexivity|]. split; [reflexivity|].
  split; [exact H3 | exact H4].
Defined.

(** ** More on the Clip Combiner and the Orchestrator *)

Section MoreScriptFacts.

Context (spawn : list string -> World -> Z * gmap string string).
Context (path_join : string -> string -> string).
Context (video_folder final_output_file : string).

Local Abbreviation cut_path' := (cut_path path_join video_folder).
Local Abbreviation cut_paths' := (cut_paths path_join video_folder).
Local Abbreviation cut_call' := (cut_call path_join video_folder).
Local Abbreviation cut_command_of' := (cut_command_of path_join video_folder).
Local Abbreviation cut_events' := (cut_events path_join video_folder).
Local Abbreviation before_cut' := (before_cut path_join video_folder).
Local Abbreviation cut_loop' := (cut_loop spawn path_join video_folder).
Local Abbreviation finish' := (finish spawn final_output_file).
Local Abbreviation main' := (main spawn path_join video_folder final_output_file).
Local Abbreviation run_script' :=
  (run_script spawn path_join video_folder final_output_file).
Local Abbreviation after_run' := (after_run spawn).
Local Abbreviation before_combine' := (before_combine final_output_file).
Local Abbreviation script_action' :=
  (script_action path_join video_folder final_output_file).

Lemma input_args_flat_map (input_files : list string) :
  input_args input_files = flat_map (fun file => ["-i"; file]) input_files.
Proof.
  unfold input_args.
  enough (forall acc,
             fold_left (fun args file => args ++ ["-i"; file]) input_files acc
             = acc ++ flat_map (fun file => ["-i"; file]) input_files) as H
    by apply (H []).
  induction input_files as [|file r IH]; intros acc.
  - simpl. now rewrite app_nil_r.
  - cbn [fold_left flat_map]. rewrite IH. now rewrite <- app_assoc.
Qed.

Lemma length_flat_map_inputs (input_files : list string) :
  length (flat_map (fun file => ["-i"; file]) input_files)
  = (2 * length input_files)%nat.
Proof.
  induction input_files as [|file r IH]; [reflexivity|].
  cbn [flat_map length app]. rewrite IH. lia.
Qed.

(** X5. [combine_videos] starts the external processor once, with every
    input in list order, each behind its own [-i], then the concat filter
    whose count is the number of inputs, the two codecs, and the output
    path last: two arguments per input and eight more. A non-zero exit
    status is raised as an error. *)
Theorem combine_videos_command (input_files : list string) (output_file : string)
    (w : World) :
  let count := PyStr.str_nat (Z.of_nat (length input_files)) in
  let command :=
    "ffmpeg" :: flat_map (fun file => ["-i"; file]) input_files
      ++ [ "-filter_complex"; "concat=n=" +:+ count +:+ ":v=1:a=1";
           "-c:v"; "libx264"; "-c:a"; "aac"; output_file ] in
  let started := log (ECall (CombineVideos input_files output_file)) w in
  let status := (spawn command started).1 in
  combine_videos spawn input_files output_file w
  = (if status =? 0 then Ok tt else Raise (CalledProcessError status command),
     mkWorld (spawn command started).2
       (trace w
          ++ [ ECall (CombineVideos input_files output_file);
               ERun command status ]))
  /\ PyStr.int count = Ok (Z.of_nat (length input_files))
  /\ last command = Some output_file
  /\ length command = (2 * length input_files + 8)%nat.
Proof.
  cbn zeta.
  assert (combine_command input_files output_file
          = "ffmpeg" :: flat_map (fun file => ["-i"; file]) input_files
              ++ [ "-filter_complex";
                   "concat=n=" +:+ PyStr.str_nat (Z.of_nat (length input_files))
                     +:+ ":v=1:a=1";
                   "-c:v"; "libx264"; "-c:a"; "aac"; output_file ]) as Hcmd.
  { unfold combine_command. cbn zeta. now rewrite input_args_flat_map. }
  rewrite <- Hcmd. split; [|split; [|split]].
  - rewrite combine_videos_eq, subprocess_run_eq. unfold after_run, log.
    cbn [trace files]. now rewrite <- app_assoc.
  - destruct (str_nat_spec (Z.of_nat (length input_files)) ltac:(lia))
      as [Hnum Hval].
    now rewrite (int_numeric _ Hnum), Hval.
  - apply last_combine_command.
  - rewrite Hcmd. cbn [length]. rewrite length_app. cbn [length].
    rewrite length_flat_map_inputs. lia.
Qed.

Lemma last_cut_command_of (item : string * (string * string)) :
  last (cut_command_of' item) = Some (cut_path' item.1).
Proof. reflexivity. Qed.

Lemma single_cut_path (clips_dict : clips) (path : string) :
  cut_paths' clips_dict = [path] ->
  exists item, clips_dict = [item] /\ path = cut_path' item.1.
Proof.
  destruct clips_dict as [|item [|? ?]]; try discriminate.
  intros [= <-]. eauto.
Qed.



Lemma cut_loop_frame (items : clips) (acc : list string) (w : World)
    (path : string) :
  touches_only_output spawn ->
  path ∉ cut_paths' items ->
  files (cut_loop' acc items w).2 !! path = files w !! path.
Proof.
  intros Hframe. revert acc w.
  induction items as [|item rest IH]; intros acc w Hnot; [reflexivity|].
  cbn [cut_paths map] in Hnot. apply not_elem_of_cons in Hnot as [Hne Hnot].
  assert (files (after_run' (cut_command_of' item) (before_cut' item w)) !! path
          = files w !! path) as Hstep.
  { unfold after_run. cbn [files]. rewrite Hframe; [reflexivity|].
    rewrite last_cut_command_of. congruence. }
  rewrite cut_loop_step, subprocess_run_eq.
  destruct (_ =? 0); [|exact Hstep].
  rewrite (IH _ _ Hnot). exact Hstep.
Qed.

(** X8. Whatever the outcome of the run, [main] leaves alone every path
    that is neither an intermediate path nor the final output path, as
    long as the external processor changes no path but the output path it
    is given: such a path holds at the end what it held at the start. *)
Theorem main_leaves_other_files (clips_dict : clips) (w : World) (path : string) :
  touches_only_output spawn ->
  path ∉ cut_paths' clips_dict ->
  path <> final_output_file ->
  files (main' clips_dict w).2 !! path = files w !! path.
Proof.
  intros Hframe Hnot Hfinal.
  pose proof (cut_loop_frame clips_dict [] w path Hframe Hnot) as Hcuts.
  rewrite main_eq.
  destruct (cut_loop_cases spawn path_join video_folder clips_dict [] w)
    as [(w1 & Hrun & _) | (pre & it & post & wpre & _ & _ & _ & _ & Hrun)];
    rewrite Hrun in *; cbn [app snd] in *; [|exact Hcuts].
  rewrite <- Hcuts.
  destruct (decide (length (cut_paths' clips_dict) = 1%nat)) as [Hone | Hmany].
  - destruct (cut_paths' clips_dict) as [|first [|? ?]]; try discriminate.
    apply not_elem_of_cons in Hnot as [Hne _].
    rewrite finish_single. destruct (files w1 !! first).
    + rewrite cleanup_eq. cbn [snd files].
      rewrite remove_all_notin by (apply not_elem_of_cons; split;
                                     [exact Hne | apply not_elem_of_nil]).
      rewrite lookup_insert_ne by congruence.
      now rewrite lookup_delete_ne by congruence.
    + reflexivity.
  - assert (files (after_run'
                     (combine_command (cut_paths' clips_dict) final_output_file)
                     (before_combine' (cut_paths' clips_dict) w1)) !! path
            = files w1 !! path) as Hstep.
    { unfold after_run. cbn [files]. rewrite Hframe; [reflexivity|].
      rewrite last_combine_command. congruence. }
    rewrite (finish_combine _ _ _ _ Hmany). cbn zeta.
    destruct (_ =? 0); [|exact Hstep].
    rewrite cleanup_eq. cbn [snd files log].
    now rewrite remove_all_notin.
Qed.

Lemma cleanup_events_paths (l : list string) (fs : gmap string string) :
  Forall (fun e => match e with
                   | EExists path _ | ERemove path => path ∈ l
                   | _ => False
                   end) (cleanup_events fs l).
Proof.
  revert fs. induction l as [|path r IH]; intros fs; [constructor|].
  cbn [cleanup_events].
  assert (forall fs',
            Forall (fun e => match e with
                             | EExists p _ | ERemove p => p ∈ path :: r
                             | _ => False
                             end) (cleanup_events fs' r)) as Hrest.
  { intros fs'. eapply Forall_impl; [apply IH|].
    intros []; simpl; try contradiction; intros ?; now right. }
  case_bool_decide; repeat (constructor; [left|]); apply Hrest.
Qed.

Lemma cut_events_actions (clips_dict items : clips) :
  (forall item, item ∈ items -> item ∈ clips_dict) ->
  Forall (script_action' clips_dict) (flat_map cut_events' items).
Proof.
  induction items as [|item r IH]; intros Hsub; [constructor|].
  cbn [flat_map]. apply Forall_app. split.
  - assert (item ∈ clips_dict) as Hin by (apply Hsub; left).
    unfold cut_events.
    constructor; [exact I|]. constructor; [left; eauto|].
    constructor; [left; eauto|]. constructor.
  - apply IH. intros it Hit. apply Hsub. now right.
Qed.

(** X9. Whatever the outcome, everything [main] does belongs to its Clip
    Request Set: it calls the Clip Cutter and starts the processor only
    for cuts of its entries and for the combination of their intermediate
    paths, it moves only the single intermediate file and only to the
    final output path, and it checks and removes only intermediate paths.
    It prints nothing with [print] and never reads the keyboard. *)
Theorem main_actions (clips_dict : clips) (w : World) :
  exists evs,
    trace (main' clips_dict w).2 = trace w ++ evs
    /\ Forall (script_action' clips_dict) evs.
Proof.
  rewrite main_eq.
  destruct (cut_loop_cases spawn path_join video_folder clips_dict [] w)
    as [(w1 & Hrun & Htr) | (pre & it & post & wpre & -> & _ & Htr & _ & Hrun)];
    rewrite Hrun; cbn [app snd].
  - pose proof (cut_events_actions clips_dict clips_dict (fun _ H => H))
      as Hcuts.
    assert (forall fs,
              Forall (script_action' clips_dict)
                (cleanup_events fs (cut_paths' clips_dict))) as Hclean.
    { intros fs. eapply Forall_impl; [apply cleanup_events_paths|].
      intros []; simpl; auto; contradiction. }
    destruct (decide (length (cut_paths' clips_dict) = 1%nat)) as [Hone | Hmany].
    + destruct (cut_paths' clips_dict) as [|first [|? ?]] eqn:Hpaths;
        try discriminate.
      pose proof (single_cut_path _ _ Hpaths) as Hsingle.
      rewrite finish_single. destruct (files w1 !! first).
      * rewrite cleanup_eq. cbn [snd trace]. rewrite Htr.
        eexists. rewrite <- !app_assoc. split; [reflexivity|].
        apply Forall_app. split; [exact Hcuts|].
        apply Forall_app. split; [|apply Hclean].
        constructor; [exact I|].
        constructor; [split; [reflexivity | exact Hsingle]|].
        constructor; [exact I | constructor].
      * cbn [snd trace]. rewrite Htr.
        eexists. rewrite <- !app_assoc. split; [reflexivity|].
        apply Forall_app. split; [exact Hcuts|].
        constructor; [exact I|].
        constructor; [split; [reflexivity | exact Hsingle] | constructor].
    + rewrite (finish_combine _ _ _ _ Hmany). cbn zeta.
      unfold after_run.
      remember (spawn _ (before_combine' (cut_paths' clips_dict) w1)) as out.
      destruct (out.1 =? 0); [rewrite cleanup_eq|]; cbn [snd trace log];
        unfold before_combine, log; cbn [trace]; rewrite Htr;
        eexists; rewrite <- !app_assoc; (split; [reflexivity|]);
        (apply Forall_app; split; [exact Hcuts|]).
      * cbn [app]. constructor; [exact I|].
        constructor; [right; reflexivity|].
        constructor; [right; reflexivity|].
        constructor; [exact I | apply Hclean].
      * cbn [app]. constructor; [exact I|].
        constructor; [right; reflexivity|].
        constructor; [right; reflexivity | constructor].
  - unfold after_run. cbn [trace]. rewrite trace_before_cut, Htr.
    eexists. rewrite <- !app_assoc. split; [reflexivity|].
    apply Forall_app. split.
    + apply cut_events_actions. intros item Hin.
      apply elem_of_app. now left.
    + assert (it ∈ pre ++ it :: post) as Hin
        by (apply elem_of_app; right; left).
      cbn [app]. constructor; [exact I|]. constructor; [left; eauto|].
      constructor; [left; eauto | constructor].
Qed.

(** ** More on the confirmation prompt *)

Lemma run_script_duration (clips_dict : clips) (answer : string) (w : World)
    (total_duration : string) :
  calculate_total_duration clips_dict = Ok total_duration ->
  run_script' clips_dict answer w
  = (if bool_decide (PyStr.lower (PyStr.strip answer) <> "y")
     then (print "Operation cancelled by the user.";; raise SystemExit)
     else main' clips_dict)
      (log (EInput "Do you want to continue? (y/n): ")
         (log (EPrint ("Total duration of the final video will be: "
                         +:+ total_duration)) w)).
Proof.
  intros Hdur. unfold run_script. rewrite bind_unfold. unfold lift.
  now rewrite Hdur.
Qed.

Lemma lower_char_y (c : ascii) :
  PyStr.lower_char c = "y"%char -> c = "y"%char \/ c = "Y"%char.
Proof.
  destruct c as [[] [] [] [] [] [] [] []]; vm_compute; intros H;
    first [discriminate H | now left | now right].
Qed.

Lemma lower_y (s : string) :
  PyStr.lower s = "y" <-> s = "y" \/ s = "Y".
Proof.
  split.
  - destruct s as [|c [|c' r]]; cbn [PyStr.lower]; intros H;
      try discriminate H.
    injection H as H. destruct (lower_char_y c H) as [-> | ->]; auto.
  - intros [-> | ->]; reflexivity.
Qed.

(** X10. Only a bare letter y, in either case and with any whitespace
    around it, confirms the run: then the script goes on with [main].
    Every other answer (the empty line, [yes], [n]) cancels: the script
    prints the cancellation line and exits without entering [main]. *)
Theorem prompt_accepts_only_y (clips_dict : clips) (answer : string) (w : World)
    (total_duration : string) :
  calculate_total_duration clips_dict = Ok total_duration ->
  let shown :=
    log (EInput "Do you want to continue? (y/n): ")
      (log (EPrint ("Total duration of the final video will be: "
                      +:+ total_duration)) w) in
  ((PyStr.strip answer = "y" \/ PyStr.strip answer = "Y")
   /\ run_script' clips_dict answer w = main' clips_dict shown)
  \/ (PyStr.strip answer <> "y" /\ PyStr.strip answer <> "Y"
      /\ run_script' clips_dict answer w
         = (Raise SystemExit,
            log (EPrint "Operation cancelled by the user.") shown)).
Proof.
  intros Hdur. cbn zeta. rewrite (run_script_duration _ _ _ _ Hdur).
  case_bool_decide as Hy.
  - right. rewrite lower_y in Hy.
    split; [intros H; apply Hy; now left|].
    split; [intros H; apply Hy; now right | reflexivity].
  - left. split; [|reflexivity].
    apply lower_y. destruct (decide (PyStr.lower (PyStr.strip answer) = "y"));
      [assumption | contradiction].
Qed.

(** X11. The duration is computed before anything is shown: when some
    field of some timestamp is not accepted by [int], the script ends with
    [ValueError] at once, whatever the answer would have been; nothing is
    printed, no question is asked and the world is unchanged. *)
Theorem malformed_timestamp_stops_script (clips_dict : clips) (answer : string)
    (w : World) :
  forallb entry_parses clips_dict = false ->
  run_script' clips_dict answer w = (Raise ValueError, w).
Proof.
  intros Hbad. unfold run_script, calculate_total_duration.
  destruct (accumulate_outcome clips_dict 0) as [[Hall _] | [_ Hraise]];
    [congruence|].
  rewrite bind_unfold. unfold lift. now rewrite Hraise.
Qed.

End MoreScriptFacts.

(** ** More on the cleanup loop *)

Lemma cleanup_absent (l : list string) (fs : gmap string string) :
  (forall path, path ∈ l -> fs !! path = None) ->
  cleanup_events fs l = map (fun path => EExists path false) l
  /\ remove_all l fs = fs.
Proof.
  induction l as [|path r IH]; intros Habs; [split; reflexivity|].
  assert (fs !! path = None) as Hp by (apply Habs; left).
  destruct IH as [IH1 IH2]; [intros q Hq; apply Habs; now right|].
  cbn [cleanup_events map]. unfold remove_all in *. cbn [foldl].
  rewrite bool_decide_eq_false_2 by (intros [? ?]; congruence).
  rewrite (delete_id fs path Hp), IH1, IH2. split; reflexivity.
Qed.

(** X12. The cleanup loop can be run again without harm: on the world a
    first pass left, a second pass over the same paths finds none of them,
    removes nothing, raises nothing and leaves the files as they are. *)
Theorem cleanup_twice (l : list string) (w : World) :
  let w1 := (cleanup l w).2 in
  cleanup l w1
  = (Ok tt,
     mkWorld (files w1) (trace w1 ++ map (fun path => EExists path false) l)).
Proof.
  cbn zeta. rewrite (cleanup_eq l w). cbn [snd]. rewrite cleanup_eq.
  cbn [files trace].
  destruct (cleanup_absent l (remove_all l (files w))) as [-> ->];
    [|reflexivity].
  intros path Hin. now apply remove_all_in.
Qed.

(** ** Intermediate paths on a POSIX platform *)

Lemma posix_join_relative (folder : string) (c : ascii) (r : string) :
  c <> "/"%char ->
  posix_join folder (String c r)
  = (if bool_decide (folder = "")
        || bool_decide (last (String.list_ascii_of_string folder)
                        = Some "/"%char)
     then folder else folder +:+ "/") +:+ String c r.
Proof.
  intros Hc. unfold posix_join.
  assert (match String c r with
          | String "/" _ => true
          | _ => false
          end = false) as Hmatch.
  { destruct c as [[] [] [] [] [] [] [] []]; try reflexivity; congruence. }
  destruct c as [[] [] [] [] [] [] [] []]; try discriminate Hmatch;
    destruct (_ || _); now rewrite ?append_assoc.
Qed.

Lemma posix_join_length (folder b : string) :
  (String.length (posix_join folder b)
   <= String.length
        ((if bool_decide (folder = "")
             || bool_decide (last (String.list_ascii_of_string folder)
                             = Some "/"%char)
          then folder else folder +:+ "/") +:+ b))%nat.
Proof.
  destruct b as [|c r].
  - unfold posix_join. destruct (_ || _); now rewrite ?append_assoc.
  - destruct (Ascii.ascii_dec c "/") as [-> | Hc].
    + cbn [posix_join]. rewrite append_length. lia.
    + now rewrite (posix_join_relative _ _ _ Hc).
Qed.

(** X13. With [posixpath.join], the intermediate path of an entry is
    never the path of its own source file, so a cut does not write over
    the file it reads; and two entries with different file names get
    different intermediate paths. *)
Theorem posix_cut_paths (video_folder name other : string) :
  cut_path posix_join video_folder name
  <> input_path posix_join video_folder name
  /\ (cut_path posix_join video_folder name
      = cut_path posix_join video_folder other -> name = other).
Proof.
  unfold cut_path, input_path.
  change ("cut_" +:+ name) with (String "c" ("ut_" +:+ name)).
  change ("cut_" +:+ other) with (String "c" ("ut_" +:+ other)).
  rewrite !posix_join_relative by discriminate.
  set (prefix := if _ || _ then video_folder else video_folder +:+ "/").
  split.
  - intros Heq. pose proof (posix_join_length video_folder name) as Hle.
    fold prefix in Hle. rewrite <- Heq in Hle.
    rewrite !append_length in Hle. cbn [String.length] in Hle.
    rewrite append_length in Hle. cbn [String.length] in Hle. lia.
  - intros Heq. apply (inj (String.app prefix)) in Heq.
    injection Heq as Heq. exact Heq.
Qed.

(** ** The further statements on concrete runs *)


Lemma simple_ffmpeg_touches_only_output (status : list string -> Z) :
  touches_only_output (simple_ffmpeg status).
Proof.
  intros command w path Hlast. unfold simple_ffmpeg.
  destruct (last command) as [out|]; [|reflexivity].
  destruct (status command =? 0); [|reflexivity].
  cbn [snd]. apply lookup_insert_ne. congruence.
Qed.


(** In [failed_run] the source files are as they were. *)
Lemma main_leaves_other_files_witness :
  touches_only_output (simple_ffmpeg (fail_on "v/cut_b.mp4"))
  /\ ("v/a.mp4" ∉ cut_paths posix_join "v" three_clips)
  /\ "v/a.mp4" <> "v/out.mp4"
  /\ files failed_run.2 !! "v/a.mp4" = Some "A".
Proof.
  assert ("v/a.mp4" ∉ cut_paths posix_join "v" three_clips) as Hnot.
  { intros Hin. apply list_elem_of_In in Hin. simpl in Hin.
    destruct Hin as [H | [H | [H | []]]]; discriminate H. }
  assert ("v/a.mp4" <> "v/out.mp4") as Hne by discriminate.
  split; [apply simple_ffmpeg_touches_only_output|].
  split; [exact Hnot|]. split; [exact Hne|].
  exact (main_leaves_other_files (simple_ffmpeg (fail_on "v/cut_b.mp4"))
           posix_join "v" "v/out.mp4" three_clips demo_world "v/a.mp4"
           (simple_ffmpeg_touches_only_output _) Hnot Hne).
Defined.

Lemma prompt_accepts_only_y_witness :
  calculate_total_duration demo_clips = Ok "00:00:15"
  /\ (run_script (simple_ffmpeg always_ok) posix_join "v" "v/out.mp4"
        demo_clips "yes" demo_world).1 = Raise SystemExit.
Proof.
  split; [reflexivity|].
  destruct (prompt_accepts_only_y (simple_ffmpeg always_ok) posix_join
              "v" "v/out.mp4" demo_clips "yes" demo_world "00:00:15" eq_refl)
    as [[[Hy | Hy] _] | (_ & _ & ->)].
  - discriminate Hy.
  - discriminate Hy.
  - reflexivity.
Defined.

Lemma malformed_timestamp_stops_script_witness :
  forallb entry_parses
    (demo_clips ++ [("c.mp4", ("00:00:xx", "00:00:20"))]) = false
  /\ run_script (simple_ffmpeg always_ok) posix_join "v" "v/out.mp4"
       (demo_clips ++ [("c.mp4", ("00:00:xx", "00:00:20"))]) "y" demo_world
     = (Raise ValueError, demo_world).
Proof.
  split; [reflexivity|].
  exact (malformed_timestamp_stops_script (simple_ffmpeg always_ok) posix_join
           "v" "v/out.mp4"
           (demo_clips ++ [("c.mp4", ("00:00:xx", "00:00:20"))])
           "y" demo_world eq_refl).
Defined.
